(** * Jakarta AQI dashboard: the scenario-to-forecast pipeline of [app.py]

    The prediction logic of [app.py] (the body of the "Predict Future AQI"
    button and the marker colouring of the map) is embedded here as Rocq
    functions, and the properties of the specification are proved about them.

    Numbers.  The script computes with Python floats.  The pipeline is written
    once, over an interface [Number] of the arithmetic it uses, and read at two
    instances: exact rationals [Q], the reference semantics in which the
    general properties are proved, and IEEE binary64 ([PrimFloat]), in which
    the literal figures of the specification are evaluated.  Rounding is not
    part of the rational semantics. *)

From Stdlib Require Import ZArith QArith Qabs Qminmax List String Bool Lia Lqa Sorted.
From Stdlib Require Import Floats Uint63.
Import ListNotations.

Set Implicit Arguments.

(** ** The arithmetic the script uses *)

Declare Scope num_scope.
Delimit Scope num_scope with num.

Class Number (R : Type) : Type := {
  of_int : Z -> R;            (* an [int] where a float is expected *)
  add : R -> R -> R;
  sub : R -> R -> R;
  mul : R -> R -> R;
  div : R -> R -> R;          (* true division [/] *)
  lt : R -> R -> bool         (* [<] *)
}.

Infix "+" := add : num_scope.
Infix "-" := sub : num_scope.
Infix "*" := mul : num_scope.
Infix "/" := div : num_scope.
Infix "<?" := lt : num_scope.

(** A decimal literal such as [0.85], written [decimal 85 100]. *)
Definition decimal {R} `{Number R} (digits scale : Z) : R :=
  (of_int digits / of_int scale)%num.

Definition Qltb (x y : Q) : bool := negb (Qle_bool y x).

#[export] Instance Q_number : Number Q := {
  of_int := inject_Z;
  add := Qplus;
  sub := Qminus;
  mul := Qmult;
  div := Qdiv;
  lt := Qltb
}.

(** An [int] as a double.  The conversion is exact below 2^53 and is used
    below 2^63 only: the integers of the script are the slider values 0..100,
    their sums and the literals. *)
Definition float_of_Z (z : Z) : float :=
  match z with
  | Z0 => PrimFloat.of_uint63 0
  | Zpos _ => PrimFloat.of_uint63 (Uint63.of_Z z)
  | Zneg p => PrimFloat.opp (PrimFloat.of_uint63 (Uint63.of_Z (Zpos p)))
  end.

#[export] Instance binary64_number : Number float := {
  of_int := float_of_Z;
  add := PrimFloat.add;
  sub := PrimFloat.sub;
  mul := PrimFloat.mul;
  div := PrimFloat.div;
  lt := PrimFloat.ltb
}.

(** ** Data *)

(** A cell of the [stasiun] column: a station name, or a missing value
    (pandas' NaN).  *)
Inductive station : Type :=
| Name (s : string)
| Missing.

(** Elementwise [==] on the column: a missing value equals nothing, itself
    included. *)
Definition station_eqb (a b : station) : bool :=
  match a, b with
  | Name s, Name t => String.eqb s t
  | _, _ => false
  end.

(** Sameness as [unique] sees it: all missing values are one value. *)
Definition station_same (a b : station) : bool :=
  match a, b with
  | Name s, Name t => String.eqb s t
  | Missing, Missing => true
  | _, _ => false
  end.

(** The six pollutant columns, in the order the script selects them. *)
Inductive pollutant : Type := pm25 | pm10 | so2 | co | o3 | no2.

(** The four sidebar sliders; each returns an [int]. *)
Record scenario : Type := Scenario {
  ev_switch : Z;
  emission_reg : Z;
  green_area : Z;
  carbon_capture : Z
}.

(** The positions the sliders start at. *)
Definition default_scenario : scenario := Scenario 30 40 25 20.

(** What the script reports with [st.warning]. *)
Inductive message : Type :=
| No_data_skipping (s : station).

(** [Series.unique()]: the distinct values in order of first appearance. *)
Fixpoint unique_from (seen l : list station) : list station :=
  match l with
  | [] => []
  | x :: l' =>
      if existsb (station_same x) seen then unique_from seen l'
      else x :: unique_from (x :: seen) l'
  end.

Definition unique (l : list station) : list station := unique_from [] l.

(** [np.arange(2025, 2031)]. *)
Definition future_years : list Z := [2025; 2026; 2027; 2028; 2029; 2030]%Z.

Section Pipeline.

Context {R : Type} `{Number R}.
Local Open Scope num_scope.

(** One row of pollutant values: the six columns
    [["pm25", "pm10", "so2", "co", "o3", "no2"]]. *)
Record features : Type := Features {
  f_pm25 : R; f_pm10 : R; f_so2 : R; f_co : R; f_o3 : R; f_no2 : R
}.

Definition column (c : pollutant) (x : features) : R :=
  match c with
  | pm25 => f_pm25 x | pm10 => f_pm10 x | so2 => f_so2 x
  | co => f_co x | o3 => f_o3 x | no2 => f_no2 x
  end.

Definition with_column (c : pollutant) (v : R) (x : features) : features :=
  match c with
  | pm25 => Features v (f_pm10 x) (f_so2 x) (f_co x) (f_o3 x) (f_no2 x)
  | pm10 => Features (f_pm25 x) v (f_so2 x) (f_co x) (f_o3 x) (f_no2 x)
  | so2 => Features (f_pm25 x) (f_pm10 x) v (f_co x) (f_o3 x) (f_no2 x)
  | co => Features (f_pm25 x) (f_pm10 x) (f_so2 x) v (f_o3 x) (f_no2 x)
  | o3 => Features (f_pm25 x) (f_pm10 x) (f_so2 x) (f_co x) v (f_no2 x)
  | no2 => Features (f_pm25 x) (f_pm10 x) (f_so2 x) (f_co x) (f_o3 x) v
  end.

(** A row of the historical table [df]. *)
Record reading : Type := Reading {
  stasiun : station;
  values : features
}.

(** *** numpy and pandas primitives *)

(** [np.mean] of a vector, and the column mean of a frame: the sum of the
    entries over their number. *)
Definition np_sum (l : list R) : R := fold_left add l (of_int 0).

Definition np_mean (l : list R) : R :=
  np_sum l / of_int (Z.of_nat (List.length l)).

(** [np.arange(0, num)] as floats. *)
Definition arange (num : nat) : list R :=
  map (fun i => of_int (Z.of_nat i)) (seq 0 num).

(** [np.linspace(start, stop, num)] with the default [endpoint=True]:
    [arange(0, num) * step + start] with [step = (stop - start) / (num - 1)],
    and the last sample overwritten by [stop] when [num > 1]. *)
Definition linspace (start stop : R) (num : nat) : list R :=
  let div := (num - 1)%nat in
  let delta := stop - start in
  let y :=
    match div with
    | O => map (fun i => i * delta + start) (arange num)
    | _ => let step := delta / of_int (Z.of_nat div) in
           map (fun i => i * step + start) (arange num)
    end in
  match div with
  | O => y
  | _ => removelast y ++ [stop]
  end.

(** [a * b] on two vectors of one length. *)
Fixpoint vec_mul (a b : list R) : list R :=
  match a, b with
  | x :: a', y :: b' => x * y :: vec_mul a' b'
  | _, _ => []
  end.

(** [X[c] *= m]: every row's column [c] is multiplied by [m]. *)
Definition scale_column (c : pollutant) (m : R) (X : list features)
  : list features :=
  map (fun x => with_column c (column c x * m) x) X.

(** *** The station registry *)

Definition station_coords : list (string * (R * R)) :=
  [ ("DKI1 (Bunderan HI)"%string, (decimal (-6193) 1000, decimal 106820 1000));
    ("DKI2 (Kelapa Gading)"%string, (decimal (-6166) 1000, decimal 106909 1000));
    ("DKI3 (Jagakarsa)"%string, (decimal (-6338) 1000, decimal 106823 1000));
    ("DKI4 (Lubang Buaya)"%string, (decimal (-6293) 1000, decimal 106894 1000));
    ("DKI5 (Kebon Jeruk)"%string, (decimal (-6200) 1000, decimal 106770 1000)) ].

(** [station_coords.get(station, (-6.2, 106.8))]. *)
Fixpoint coords_get (d : list (string * (R * R))) (k : station) (default : R * R)
  : R * R :=
  match d with
  | [] => default
  | (name, v) :: d' =>
      if station_same k (Name name) then v else coords_get d' k default
  end.

(** *** The prediction logic *)

(** The trained regressor, loaded from [jakarta_aqi_model.pkl]: the file is
    not part of the sources, so the regressor is a parameter.  It maps one
    feature row to one AQI value; [model.predict] applies it to every row of
    its argument. *)
Variable predict : features -> R.

Definition model_predict (X : list features) : list R := map predict X.

(** [sub[["pm25", "pm10", "so2", "co", "o3", "no2"]].mean()], on a table
    whose pollutant cells are all present (the cleaned table): a missing cell,
    which pandas would skip, is not represented.  The sum runs from left to
    right; the order in which pandas adds long columns in binary64 is not
    modelled. *)
Definition mean_features (sub : list reading) : features :=
  let col c := np_mean (map (fun r => column c (values r)) sub) in
  Features (col pm25) (col pm10) (col so2) (col co) (col o3) (col no2).

(** The six factors the script multiplies the columns by. *)
Definition multiplier (sc : scenario) (c : pollutant) : R :=
  match c with
  | pm25 => of_int 1 - of_int (ev_switch sc + emission_reg sc) / of_int 200
  | pm10 => of_int 1 - of_int (green_area sc + emission_reg sc) / of_int 220
  | co => of_int 1 - of_int (carbon_capture sc + ev_switch sc) / of_int 250
  | no2 => of_int 1 - of_int (emission_reg sc + ev_switch sc) / of_int 180
  | so2 => of_int 1 - of_int (carbon_capture sc + emission_reg sc) / of_int 230
  | o3 => of_int 1 - of_int (green_area sc) / of_int 200
  end.

(** [X_future]: the mean row once per forecast year, then the six in-place
    column updates, in the order of the script. *)
Definition X_future (mean : features) (sc : scenario) : list features :=
  let X := repeat mean (List.length future_years) in
  let X := scale_column pm25 (multiplier sc pm25) X in
  let X := scale_column pm10 (multiplier sc pm10) X in
  let X := scale_column co (multiplier sc co) X in
  let X := scale_column no2 (multiplier sc no2) X in
  let X := scale_column so2 (multiplier sc so2) X in
  let X := scale_column o3 (multiplier sc o3) X in
  X.

(** [base_pred * np.linspace(1, 0.85, len(base_pred))]. *)
Definition adjusted_pred (base_pred : list R) : list R :=
  vec_mul base_pred
    (linspace (of_int 1) (decimal 85 100) (List.length base_pred)).

(** One entry of [results]. *)
Record result : Type := Result {
  r_stasiun : station;
  latitude : R;
  longitude : R;
  avg_aqi : R;
  predictions : list R
}.

(** What one press of the button leaves behind: the list [results] and the
    warnings shown. *)
Record run : Type := Run {
  station_results : list result;
  warnings : list message
}.

(** The forecast of one station with readings [sub]. *)
Definition station_result (sc : scenario) (s : station) (sub : list reading)
  : result :=
  let base_pred := model_predict (X_future (mean_features sub) sc) in
  let adjusted := adjusted_pred base_pred in
  let '(lat, lon) :=
    coords_get station_coords s (decimal (-62) 10, decimal 1068 10) in
  Result s lat lon (np_mean adjusted) adjusted.

(** [df[df["stasiun"] == station]]. *)
Definition rows_of (df : list reading) (s : station) : list reading :=
  filter (fun r => station_eqb (stasiun r) s) df.

(** The body of [for station in df["stasiun"].unique()]. *)
Definition loop_body (sc : scenario) (df : list reading) (acc : run)
  (s : station) : run :=
  let sub := rows_of df s in
  match sub with
  | [] => Run (station_results acc) (warnings acc ++ [No_data_skipping s])
  | _ :: _ => Run (station_results acc ++ [station_result sc s sub])
                  (warnings acc)
  end.

Definition predict_future_aqi (sc : scenario) (df : list reading) : run :=
  fold_left (loop_body sc df) (unique (map stasiun df)) (Run [] []).

(** *** The colour of a map marker *)

(** ["green" if year_aqi < 50 else "orange" if year_aqi < 100 else "red"]. *)
Definition color (year_aqi : R) : string :=
  if year_aqi <? of_int 50 then "green"%string
  else if year_aqi <? of_int 100 then "orange"%string
  else "red"%string.

End Pipeline.

Arguments features R : clear implicits.
Arguments reading R : clear implicits.
Arguments result R : clear implicits.
Arguments run R : clear implicits.

(** ** The vocabulary of the specification *)

Inductive RiskBand : Type := LOW | MODERATE | HIGH.

(** The marker colour that stands for each band. *)
Definition band_color (b : RiskBand) : string :=
  match b with
  | LOW => "green"
  | MODERATE => "orange"
  | HIGH => "red"
  end.

(** A scenario the sliders can produce: every parameter within [0, 100]. *)
Definition in_range (v : Z) : Prop := (0 <= v <= 100)%Z.

Definition valid_scenario (sc : scenario) : Prop :=
  in_range (ev_switch sc) /\ in_range (emission_reg sc) /\
  in_range (green_area sc) /\ in_range (carbon_capture sc).

(** A station that is not the missing value. *)
Definition present (s : station) : bool := negb (station_same s Missing).

Section Vocabulary.

Context {R : Type} `{Number R}.
Local Open Scope num_scope.

(** The row every forecast year receives. *)
Definition projected (mean : features R) (sc : scenario) : features R :=
  Features (f_pm25 mean * multiplier sc pm25) (f_pm10 mean * multiplier sc pm10)
           (f_so2 mean * multiplier sc so2) (f_co mean * multiplier sc co)
           (f_o3 mean * multiplier sc o3) (f_no2 mean * multiplier sc no2).

(** [not df[df["stasiun"] == s].empty]. *)
Definition has_rows (df : list (reading R)) (s : station) : bool :=
  match rows_of df s with [] => false | _ :: _ => true end.

(** The table with the rows of station [s] taken out. *)
Definition without (s : station) (df : list (reading R)) : list (reading R) :=
  filter (fun r => negb (station_same (stasiun r) s)) df.

End Vocabulary.

(** *** The table of the specification *)

(** The drivers and the normalizer of each pollutant, as the specification
    tabulates them, over the rationals. *)
Definition drivers (sc : scenario) (c : pollutant) : Q :=
  let evAdoption := inject_Z (ev_switch sc) in
  let emissionRegulation := inject_Z (emission_reg sc) in
  let greenArea := inject_Z (green_area sc) in
  let carbonCapture := inject_Z (carbon_capture sc) in
  match c with
  | pm25 => evAdoption + emissionRegulation
  | pm10 => greenArea + emissionRegulation
  | co => carbonCapture + evAdoption
  | no2 => emissionRegulation + evAdoption
  | so2 => carbonCapture + emissionRegulation
  | o3 => greenArea
  end.

Definition normalizer (c : pollutant) : Q :=
  match c with
  | pm25 => 200
  | pm10 => 220
  | co => 250
  | no2 => 180
  | so2 => 230
  | o3 => 200
  end.

Definition table_multiplier (sc : scenario) (c : pollutant) : Q :=
  1 - drivers sc c / normalizer c.

(** The station profile of the worked example:
    [[50, 40, 10, 5, 20, 30]] for (pm25, pm10, so2, co, o3, no2). *)
Definition example_mean {R} `{Number R} : features R :=
  Features (of_int 50) (of_int 40) (of_int 10) (of_int 5) (of_int 20)
           (of_int 30).

(** A row whose six entries are non-negative. *)
Definition nonneg (x : features Q) : Prop := forall c, 0 <= column c x.

(** *** Inputs to run the pipeline on *)

(** A regressor to run the pipeline with: the sum of the six pollutants. *)
Definition example_regressor (x : features Q) : Q :=
  f_pm25 x + f_pm10 x + f_so2 x + f_co x + f_o3 x + f_no2 x.

(** A table with two readings of one station and one reading whose station is
    missing. *)
Definition example_table : list (reading Q) :=
  [ Reading (Name "DKI1 (Bunderan HI)") example_mean;
    Reading Missing example_mean;
    Reading (Name "DKI1 (Bunderan HI)") example_mean ].

(** The forecast of that station under a strict scenario. *)
Definition strict_forecast : result Q :=
  station_result example_regressor (Scenario 100 80 100 100)
    (Name "DKI1 (Bunderan HI)")
    (rows_of example_table (Name "DKI1 (Bunderan HI)")).

(** A regressor and a one-station table in any arithmetic, and the forecast
    the run computes from them in binary64 with every slider at 0. *)
Definition sum_regressor {R} `{Number R} (x : features R) : R :=
  (f_pm25 x + f_pm10 x + f_so2 x + f_co x + f_o3 x + f_no2 x)%num.

Definition one_station_table {R} `{Number R} : list (reading R) :=
  [Reading (Name "DKI1 (Bunderan HI)") example_mean].

Definition binary64_forecast : result float :=
  station_result sum_regressor (Scenario 0 0 0 0)
    (Name "DKI1 (Bunderan HI)")
    (rows_of one_station_table (Name "DKI1 (Bunderan HI)")).

(** ** The session and the display *)

(** Streamlit runs the script from top to bottom at each interaction; only
    [st.session_state] survives from one run to the next.  The script stores
    two keys in it. *)
Record session_state (R : Type) : Type := Session {
  state_station_results : option (list (result R));
  state_selected_year : option Z
}.

(** What set the run off: a press of the predict button, a press of the year
    button with key [year_<year>], or anything else (a slider moved, the map
    panned).  A button returns [True] only in the run its press set off. *)
Inductive interaction : Type :=
| Press_predict
| Press_year (year : Z)
| Other_interaction.

(** The exceptions the display can raise. *)
Inductive exception : Type := KeyError | ValueError | IndexError.

Definition predict_pressed (ev : interaction) : bool :=
  match ev with Press_predict => true | _ => false end.

Definition year_pressed (ev : interaction) (year : Z) : bool :=
  match ev with Press_year y => Z.eqb y year | _ => false end.

(** [list(range(2025, 2031))]. *)
Definition years : list Z := [2025; 2026; 2027; 2028; 2029; 2030]%Z.

Section Display.

Context {R : Type} `{Number R}.

Variable predict : features R -> R.

(** [a[i]] on a vector and a Python [int]: a negative index counts from the
    end, an index out of range raises [IndexError] ([None]). *)
Definition getitem (a : list R) (i : Z) : option R :=
  let n := Z.of_nat (List.length a) in
  if ((0 <=? i) && (i <? n))%Z then nth_error a (Z.to_nat i)
  else if ((- n <=? i) && (i <? 0))%Z then nth_error a (Z.to_nat (i + n))
  else None.

(** A Python [dict] keyed by station: assigning to a key that is present
    replaces its value in place, a new key goes to the end. *)
Fixpoint dict_set (d : list (station * list R)) (k : station) (v : list R)
  : list (station * list R) :=
  match d with
  | [] => [(k, v)]
  | (k', v') :: d' =>
      if station_same k k' then (k', v) :: d'
      else (k', v') :: dict_set d' k v
  end.

(** [{row["stasiun"]: row["predictions"] for _, row in results_df.iterrows()}]. *)
Definition predictions_by_station (results_df : list (result R))
  : list (station * list R) :=
  fold_left (fun d row => dict_set d (r_stasiun row) (predictions row))
            results_df [].

(** A column of a frame built over the index [np.arange(2025, 2031)]: an
    array as long as the index is taken as it is, an array of one value is
    repeated over the index, and any other length raises [ValueError]
    ([None]). *)
Definition over_index (v : list R) : option (list R) :=
  if Nat.eqb (List.length v) (List.length future_years) then Some v
  else match v with
       | [x] => Some (repeat x (List.length future_years))
       | _ => None
       end.

Fixpoint frame_columns (d : list (station * list R))
  : option (list (station * list R)) :=
  match d with
  | [] => Some []
  | (k, v) :: d' =>
      match over_index v, frame_columns d' with
      | Some v', Some cols => Some ((k, v') :: cols)
      | _, _ => None
      end
  end.

(** [line_data]: the frame of that dictionary over the index. *)
Definition line_data (results_df : list (result R))
  : option (list (station * list R)) :=
  frame_columns (predictions_by_station results_df).

(** A cell of the first column of the melted frame: a year of the index or,
    when a station column stands in its place, a prediction. *)
Inductive id_cell : Type :=
| Year_cell (year : Z)
| Value_cell (v : R).

Definition labelled (name : string) (kv : station * list R) : bool :=
  station_same (Name name) (fst kv).

(** The usual melt: one row (Year, Station, AQI) per cell, station by station
    and, within a station, year by year. *)
Definition melt (d : list (station * list R)) : list (id_cell * station * R) :=
  flat_map (fun kv => map (fun yv => (Year_cell (fst yv), fst kv, snd yv))
                          (combine future_years (snd kv))) d.

(** The melt when a station is labelled ["index"]: [reset_index] then names
    the column of the years ["level_0"], [id_vars="index"] picks the
    station's own column, and the years are melted as one more variable. *)
Definition melt_displaced (ids : list R) (d : list (station * list R))
  : list (id_cell * station * R) :=
  flat_map (fun kv => map (fun iv => (Value_cell (fst iv), fst kv, snd iv))
                          (combine ids (snd kv)))
           ((Name "level_0", map of_int future_years)
              :: filter (fun kv => negb (labelled "index" kv)) d).

(** [df_long]:
    [line_data.reset_index().melt(id_vars="index", var_name="Station",
    value_name="AQI")], with the first column renamed to [Year].
    [reset_index] raises [ValueError] when it must insert ["level_0"] and a
    column has that label; [melt] raises [ValueError] when a column is
    labelled as [value_name] is. *)
Definition df_long (results_df : list (result R))
  : option (list (id_cell * station * R)) :=
  match line_data results_df with
  | None => None
  | Some cols =>
      if existsb (labelled "index") cols && existsb (labelled "level_0") cols
      then None
      else if existsb (labelled "AQI") cols then None
      else match find (labelled "index") cols with
           | None => Some (melt cols)
           | Some (_, ids) => Some (melt_displaced ids cols)
           end
  end.

(** One marker of the map. *)
Record marker : Type := Marker {
  marker_location : R * R;
  marker_stasiun : station;
  marker_year : Z;
  marker_year_aqi : R;
  marker_color : string
}.

(** The body of [for _, row in results_df.iterrows()] of the map. *)
Definition marker_of (selected_year : Z) (row : result R) : option marker :=
  let year_index := (selected_year - 2025)%Z in
  match getitem (predictions row) year_index with
  | Some year_aqi =>
      Some (Marker (latitude row, longitude row) (r_stasiun row)
                   selected_year year_aqi (color year_aqi))
  | None => None
  end.

(** The loop over [results_df.iterrows()] of the map: the markers, unless an
    index is out of range. *)
Fixpoint markers_of (selected_year : Z) (results_df : list (result R))
  : option (list marker) :=
  match results_df with
  | [] => Some []
  | row :: rest =>
      match marker_of selected_year row with
      | Some m => option_map (cons m) (markers_of selected_year rest)
      | None => None
      end
  end.

(** The loop over the year buttons: the pressed one, if any, becomes the
    selected year. *)
Definition year_buttons (ev : interaction) (selected_year : Z) : Z :=
  fold_left (fun selected year =>
               if year_pressed ev year then year else selected)
            years selected_year.

(** What one run of the script shows below the title: the invitation to
    predict, or the chart data, the selected year and the markers of the map,
    or an uncaught exception. *)
Inductive page : Type :=
| Info_page
| Results_page (chart : list (id_cell * station * R)) (selected_year : Z)
               (markers : list marker)
| Raised (e : exception).

(** One run of the script, from the predict button to the map, with the
    sliders at [sc] and the cached table [df]: the session it leaves, the
    warnings it shows and the page.  A frame built from an empty [results]
    has no columns, so that selecting [["stasiun", "avg_aqi"]] for the table
    raises [KeyError]; what was written to the session before an exception
    stays written. *)
Definition script (df : list (reading R)) (sc : scenario) (ev : interaction)
  (ss : session_state R) : session_state R * list message * page :=
  let '(ss, shown) :=
    if predict_pressed ev then
      let r := predict_future_aqi predict sc df in
      (Session (Some (station_results r)) (Some 2025%Z), warnings r)
    else (ss, []) in
  match state_station_results ss with
  | Some [] => (ss, shown, Raised KeyError)
  | Some results_df =>
      match df_long results_df with
      | None => (ss, shown, Raised ValueError)
      | Some chart =>
          let selected_year :=
            match state_selected_year ss with
            | Some year => year
            | None => 2025%Z
            end in
          let selected_year := year_buttons ev selected_year in
          let ss := Session (Some results_df) (Some selected_year) in
          match markers_of selected_year results_df with
          | Some markers =>
              (ss, shown, Results_page chart selected_year markers)
          | None => (ss, shown, Raised IndexError)
          end
      end
  | None => (ss, shown, Info_page)
  end.

(** The session after a sequence of runs, from a fresh session. *)
Definition session_after (df : list (reading R))
  (runs : list (scenario * interaction)) : session_state R :=
  fold_left (fun ss run => fst (fst (script df (fst run) (snd run) ss))) runs
            (Session None None).

(** The sessions the script leaves behind: the stored forecast, if any, is
    that of a run of the prediction logic on the table, and then a year from
    2025 to 2030 is selected; without a stored forecast no year is. *)
Definition well_formed (df : list (reading R)) (ss : session_state R)
  : Prop :=
  match state_station_results ss with
  | None => state_selected_year ss = None
  | Some rs =>
      (exists sc, rs = station_results (predict_future_aqi predict sc df)) /\
      exists year, state_selected_year ss = Some year /\
                   (2025 <= year <= 2030)%Z
  end.

(** The scenario of the last press of the predict button, if any. *)
Fixpoint last_predict (runs : list (scenario * interaction))
  (found : option scenario) : option scenario :=
  match runs with
  | [] => found
  | (sc, ev) :: runs' =>
      last_predict runs' (if predict_pressed ev then Some sc else found)
  end.

End Display.

Unset Implicit Arguments.

(** * Properties *)

(** ** Facts that hold in every arithmetic *)

Section Structure.

Context {R : Type} `{Number R}.
Local Open Scope num_scope.

Lemma X_future_repeat (mean : features R) (sc : scenario) :
  X_future mean sc = repeat (projected mean sc) 6.
Proof. reflexivity. Qed.

Lemma projected_column (mean : features R) (sc : scenario) (c : pollutant) :
  column c (projected mean sc) = column c mean * multiplier sc c.
Proof. destruct c; reflexivity. Qed.

(** *** The loop over the stations *)

Variable predict : features R -> R.

Lemma station_result_stasiun sc s (sub : list (reading R)) :
  r_stasiun (station_result predict sc s sub) = s.
Proof.
  unfold station_result.
  destruct (coords_get _ _ _) as [lat lon]; reflexivity.
Qed.

Lemma station_result_predictions sc s (sub : list (reading R)) :
  predictions (station_result predict sc s sub) =
  adjusted_pred (model_predict predict (X_future (mean_features sub) sc)).
Proof.
  unfold station_result.
  destruct (coords_get _ _ _) as [lat lon]; reflexivity.
Qed.

Lemma station_result_avg_aqi sc s (sub : list (reading R)) :
  avg_aqi (station_result predict sc s sub) =
  np_mean (predictions (station_result predict sc s sub)).
Proof.
  unfold station_result.
  destruct (coords_get _ _ _) as [lat lon]; reflexivity.
Qed.

(** The loop appends one result per station with rows and one warning per
    station without, in the order of the stations. *)
Lemma loop_unfold sc (df : list (reading R)) (l : list station) (acc : run R) :
  fold_left (loop_body predict sc df) l acc =
  Run (station_results acc ++
         map (fun s => station_result predict sc s (rows_of df s))
             (filter (has_rows df) l))
      (warnings acc ++
         map No_data_skipping (filter (fun s => negb (has_rows df s)) l)).
Proof.
  revert acc; induction l as [|s l IH]; intros [res ws]; simpl.
  - now rewrite !app_nil_r.
  - rewrite IH. unfold loop_body, has_rows.
    destruct (rows_of df s) eqn:E; simpl.
    + f_equal. now rewrite <- app_assoc.
    + rewrite E. f_equal. now rewrite <- app_assoc.
Qed.

Lemma station_results_spec sc (df : list (reading R)) :
  station_results (predict_future_aqi predict sc df) =
  map (fun s => station_result predict sc s (rows_of df s))
      (filter (has_rows df) (unique (map stasiun df))).
Proof. unfold predict_future_aqi; now rewrite loop_unfold. Qed.

Lemma warnings_spec sc (df : list (reading R)) :
  warnings (predict_future_aqi predict sc df) =
  map No_data_skipping
      (filter (fun s => negb (has_rows df s)) (unique (map stasiun df))).
Proof. unfold predict_future_aqi; now rewrite loop_unfold. Qed.

Lemma forecast_stations sc (df : list (reading R)) :
  map r_stasiun (station_results (predict_future_aqi predict sc df)) =
  filter (has_rows df) (unique (map stasiun df)).
Proof.
  rewrite station_results_spec, map_map.
  rewrite (map_ext _ (fun s => s)) by (intros; apply station_result_stasiun).
  apply map_id.
Qed.

(** *** Stations without rows *)

Lemma unique_from_In seen l x : In x (unique_from seen l) -> In x l.
Proof.
  revert seen; induction l as [|y l IH]; intros seen; simpl; [tauto|].
  destruct (existsb _ seen).
  - intros Hx; right; eauto.
  - intros [->|Hx]; [now left | right; eauto].
Qed.

Lemma named_station_has_rows (df : list (reading R)) n :
  In (Name n) (map stasiun df) -> has_rows df (Name n) = true.
Proof.
  intros Hin. apply in_map_iff in Hin as (r & Er & Hr).
  unfold has_rows.
  assert (Hf : In r (rows_of df (Name n))).
  { apply filter_In; split; [assumption|].
    rewrite Er; simpl; apply String.eqb_refl. }
  destruct (rows_of df (Name n)); [contradiction | reflexivity].
Qed.

Lemma missing_has_no_rows (df : list (reading R)) :
  rows_of df Missing = [].
Proof.
  unfold rows_of. induction df as [|r df IH]; simpl; [reflexivity|].
  destruct (stasiun r); simpl; assumption.
Qed.

(** A station the loop visits has no rows only when it is the missing
    value. *)
Lemma empty_station_is_missing (df : list (reading R)) s :
  In s (unique (map stasiun df)) -> rows_of df s = [] -> s = Missing.
Proof.
  intros Hin Hempty. destruct s as [n|]; [|reflexivity].
  apply unique_from_In, named_station_has_rows in Hin.
  unfold has_rows in Hin; rewrite Hempty in Hin; discriminate.
Qed.

Lemma existsb_same_present x seen :
  present x = true ->
  existsb (station_same x) (filter present seen) =
  existsb (station_same x) seen.
Proof.
  intros Hx; induction seen as [|y seen IH]; simpl; [reflexivity|].
  destruct y as [m|]; simpl.
  - now rewrite IH.
  - rewrite IH. destruct x; [reflexivity | discriminate].
Qed.

Lemma unique_from_present seen l :
  unique_from (filter present seen) (filter present l) =
  filter present (unique_from seen l).
Proof.
  revert seen; induction l as [|x l IH]; intros seen; simpl; [reflexivity|].
  destruct x as [n|]; simpl.
  - rewrite existsb_same_present by reflexivity.
    destruct (existsb _ seen); simpl; [apply IH|].
    f_equal. apply (IH (Name n :: seen)).
  - destruct (existsb _ seen); simpl; [apply IH|].
    apply (IH (Missing :: seen)).
Qed.

Lemma stasiun_without_missing (df : list (reading R)) :
  map stasiun (without Missing df) = filter present (map stasiun df).
Proof.
  unfold without. induction df as [|r df IH]; simpl; [reflexivity|].
  unfold present at 1.
  destruct (negb (station_same (stasiun r) Missing)); simpl; now rewrite IH.
Qed.

Lemma rows_of_without_missing (df : list (reading R)) s :
  rows_of (without Missing df) s = rows_of df s.
Proof.
  unfold rows_of, without. induction df as [|r df IH]; simpl; [reflexivity|].
  destruct (stasiun r) as [n|] eqn:E; simpl; rewrite ?E; simpl.
  - now rewrite IH.
  - exact IH.
Qed.

Lemma has_rows_without_missing (df : list (reading R)) s :
  has_rows (without Missing df) s = has_rows df s.
Proof. unfold has_rows; now rewrite rows_of_without_missing. Qed.

Lemma filter_has_rows_present (df : list (reading R)) l :
  filter (has_rows df) (filter present l) = filter (has_rows df) l.
Proof.
  induction l as [|x l IH]; simpl; [reflexivity|].
  destruct x as [n|]; simpl.
  - now rewrite IH.
  - unfold has_rows at 2. now rewrite missing_has_no_rows.
Qed.

Lemma station_results_without_missing sc (df : list (reading R)) :
  station_results (predict_future_aqi predict sc (without Missing df)) =
  station_results (predict_future_aqi predict sc df).
Proof.
  rewrite !station_results_spec, stasiun_without_missing.
  assert (E : unique (filter present (map stasiun df)) =
              filter present (unique (map stasiun df)))
    by apply (unique_from_present [] (map stasiun df)).
  rewrite E, (filter_ext _ _ (has_rows_without_missing df)).
  rewrite filter_has_rows_present.
  apply map_ext; intros s; now rewrite rows_of_without_missing.
Qed.

End Structure.

(** ** The Feature Projector *)

Lemma multiplier_table (sc : scenario) (c : pollutant) :
  multiplier (R:=Q) sc c == table_multiplier sc c.
Proof.
  destruct c; unfold multiplier, table_multiplier, drivers, normalizer; cbn;
    rewrite ?inject_Z_plus; reflexivity.
Qed.

Lemma in_range_Q (v : Z) : in_range v -> 0 <= inject_Z v /\ inject_Z v <= 100.
Proof.
  intros [Hlo Hhi]; split.
  - change 0 with (inject_Z 0); now rewrite <- Zle_Qle.
  - change 100 with (inject_Z 100); now rewrite <- Zle_Qle.
Qed.

Lemma one_minus_ratio_nonneg (x n : Q) : 0 < n -> x <= n -> 0 <= 1 - x / n.
Proof.
  intros Hn Hx. unfold Qminus.
  apply (proj1 (Qle_minus_iff (x / n) 1)).
  apply Qle_shift_div_r; [assumption|]. now rewrite Qmult_1_l.
Qed.

Lemma table_multiplier_nonneg (sc : scenario) (c : pollutant) :
  valid_scenario sc ->
  (c = no2 -> (emission_reg sc + ev_switch sc <= 180)%Z) ->
  0 <= table_multiplier sc c.
Proof.
  intros (Hev & Hreg & Hgreen & Hcc) Hsum.
  apply in_range_Q in Hev, Hreg, Hgreen, Hcc.
  destruct c; unfold table_multiplier, drivers, normalizer;
    try (apply one_minus_ratio_nonneg; [reflexivity | lra]).
  specialize (Hsum eq_refl).
  apply one_minus_ratio_nonneg; [reflexivity|].
  rewrite <- inject_Z_plus. change 180 with (inject_Z 180).
  now rewrite <- Zle_Qle.
Qed.

Lemma projected_column_nonneg (mean : features Q) (sc : scenario)
  (c : pollutant) :
  0 <= column c mean -> 0 <= multiplier sc c ->
  Forall (fun x => 0 <= column c x) (X_future mean sc).
Proof.
  intros Hmean Hm. rewrite X_future_repeat.
  apply Forall_forall; intros x Hx. apply repeat_spec in Hx; subst x.
  rewrite projected_column. cbn [mul Q_number].
  now apply Qmult_le_0_compat.
Qed.

(** C1: every row of [X_future] is the station's mean row with each pollutant
    column multiplied by the factor of the specification's table,
    [1 - drivers / normalizer]; for the mean row [[50,40,10,5,20,30]] and the
    scenario (30, 40, 25, 20) the PM2.5 factor is 0.65 and the projected PM2.5
    is 32.5 in each of the six rows, over the rationals and in binary64
    (where 0.65 is the double [0x1.4cccccccccccdp-1] nearest to it). *)
Theorem projector_scales_by_table :
  (forall (mean : features Q) (sc : scenario),
      List.length (X_future mean sc) = 6%nat /\
      Forall (fun x => forall c,
                  column c x == column c mean * table_multiplier sc c)
             (X_future mean sc)) /\
  multiplier (R:=Q) (Scenario 30 40 25 20) pm25 == 65 # 100 /\
  Forall (fun x => f_pm25 x == 325 # 10)
         (X_future (R:=Q) example_mean (Scenario 30 40 25 20)) /\
  multiplier (R:=float) (Scenario 30 40 25 20) pm25 = 0x1.4cccccccccccdp-1%float /\
  map f_pm25 (X_future (R:=float) example_mean (Scenario 30 40 25 20)) =
  repeat 32.5%float 6.
Proof.
  split; [|split; [|split; [|split]]].
  - intros mean sc; rewrite X_future_repeat; split; [reflexivity|].
    apply Forall_forall; intros x Hx. apply repeat_spec in Hx; subst x.
    intros c. rewrite projected_column. cbn [mul Q_number].
    now rewrite multiplier_table.
  - reflexivity.
  - rewrite X_future_repeat. repeat constructor.
  - reflexivity.
  - reflexivity.
Qed.

(** C2, as the code has it: the script applies no floor to the multipliers.
    For a scenario whose four parameters lie in [0, 100] and a station profile
    with non-negative means, the multipliers of PM2.5, PM10, SO2, CO and O3
    are non-negative, and so are those entries of every projected row; when
    moreover [emission_reg + ev_switch <= 180], the NO2 multiplier is
    non-negative too, and every entry of every projected row is
    non-negative. *)
Theorem projection_nonnegative (mean : features Q) (sc : scenario) :
  valid_scenario sc -> nonneg mean ->
  (forall c, c <> no2 ->
             0 <= multiplier sc c /\
             Forall (fun x => 0 <= column c x) (X_future mean sc)) /\
  ((emission_reg sc + ev_switch sc <= 180)%Z ->
   (forall c, 0 <= multiplier sc c) /\
   Forall nonneg (X_future mean sc)).
Proof.
  intros Hsc Hmean. split.
  - intros c Hc.
    assert (Hm : 0 <= multiplier (R:=Q) sc c).
    { rewrite multiplier_table. apply table_multiplier_nonneg; [assumption|].
      intros ->; contradiction. }
    split; [exact Hm|]. now apply projected_column_nonneg.
  - intros Hsum.
    assert (Hm : forall c, 0 <= multiplier (R:=Q) sc c).
    { intros c; rewrite multiplier_table.
      now apply table_multiplier_nonneg. }
    split; [exact Hm|].
    rewrite X_future_repeat. apply Forall_forall; intros x Hx.
    apply repeat_spec in Hx; subst x. intros c.
    rewrite projected_column. cbn [mul Q_number].
    apply Qmult_le_0_compat; [apply Hmean | apply Hm].
Qed.

Lemma projection_nonnegative_witness :
  (forall c, c <> no2 ->
             0 <= multiplier (R:=Q) default_scenario c /\
             Forall (fun x => 0 <= column c x)
                    (X_future (R:=Q) example_mean default_scenario)) /\
  (forall c, 0 <= multiplier (R:=Q) default_scenario c) /\
  Forall nonneg (X_future (R:=Q) example_mean default_scenario).
Proof.
  destruct (projection_nonnegative example_mean default_scenario)
    as [Hfive Hall].
  - unfold valid_scenario, in_range; simpl; lia.
  - intros c; destruct c; simpl; discriminate.
  - split; [exact Hfive|]. apply Hall. simpl; lia.
Defined.

(** With both EV adoption and emission regulation at 100 the parameters are
    in range and the means non-negative, and yet the NO2 multiplier is
    [1 - 200/180 = -1/9]: the projected NO2 of every year is negative. *)
Lemma projection_negative_no2 :
  valid_scenario (Scenario 100 100 0 0) /\
  nonneg example_mean /\
  multiplier (R:=Q) (Scenario 100 100 0 0) no2 == - (1 # 9) /\
  ~ (forall c, 0 <= multiplier (R:=Q) (Scenario 100 100 0 0) c) /\
  ~ Forall nonneg (X_future (R:=Q) example_mean (Scenario 100 100 0 0)) /\
  (multiplier (R:=float) (Scenario 100 100 0 0) no2 <? 0)%float = true.
Proof.
  split; [|split; [|split; [|split; [|split]]]].
  - unfold valid_scenario, in_range; simpl; lia.
  - intros c; destruct c; simpl; discriminate.
  - reflexivity.
  - intros Hall. specialize (Hall no2). apply Hall. reflexivity.
  - intros Hall. rewrite X_future_repeat in Hall.
    apply Forall_inv in Hall. specialize (Hall no2).
    apply Hall. reflexivity.
  - reflexivity.
Qed.

(** C6: the six rows of [X_future], one per forecast year 2025..2030, are one
    and the same row; its entries are the station's means times the scenario's
    multipliers, in which the year does not occur. *)
Theorem projected_rows_identical {R : Type} `{Number R}
  (mean : features R) (sc : scenario) :
  exists v : features R,
    X_future mean sc = [v; v; v; v; v; v] /\
    combine future_years (X_future mean sc) =
      map (fun year => (year, v)) future_years /\
    forall c, column c v = (column c mean * multiplier sc c)%num.
Proof.
  exists (projected mean sc); repeat split.
  apply projected_column.
Qed.

(** C7: at the neutral scenario (0, 0, 0, 0) each of the six multipliers is 1
    and every projected row equals the station's mean row. *)
Theorem neutral_scenario_identity (mean : features Q) :
  (forall c, multiplier (R:=Q) (Scenario 0 0 0 0) c == 1) /\
  (forall c, multiplier (R:=float) (Scenario 0 0 0 0) c = 1%float) /\
  List.length (X_future mean (Scenario 0 0 0 0)) = 6%nat /\
  Forall (fun x => forall c, column c x == column c mean)
         (X_future mean (Scenario 0 0 0 0)).
Proof.
  assert (Hm : forall c, multiplier (R:=Q) (Scenario 0 0 0 0) c == 1)
    by (intros c; destruct c; reflexivity).
  repeat split; try assumption.
  - intros c; destruct c; reflexivity.
  - rewrite X_future_repeat. apply Forall_forall; intros x Hx.
    apply repeat_spec in Hx; subst x. intros c.
    rewrite projected_column. cbn [mul Q_number].
    rewrite Hm. apply Qmult_1_r.
Qed.

(** ** The Forecast Engine *)

(** The factor vector [np.linspace(1, 0.85, 6)], evaluated over the
    rationals. *)
Lemma linspace_value :
  linspace (R:=Q) (of_int 1) (decimal 85 100) 6 =
  [500 # 500; 485 # 500; 470 # 500; 455 # 500; 440 # 500; 85 # 100].
Proof. vm_compute. reflexivity. Qed.

Lemma adjusted_pred_six (p0 p1 p2 p3 p4 p5 : Q) :
  adjusted_pred [p0; p1; p2; p3; p4; p5] =
  [p0 * (500 # 500); p1 * (485 # 500); p2 * (470 # 500); p3 * (455 # 500);
   p4 * (440 # 500); p5 * (85 # 100)].
Proof.
  unfold adjusted_pred. simpl List.length. rewrite linspace_value. reflexivity.
Qed.

(** The six predictions of a station: one base value, damped year by year. *)
Lemma station_predictions (predict : features Q -> Q) (sc : scenario)
  (s : station) (sub : list (reading Q)) :
  let base := predict (projected (mean_features sub) sc) in
  predictions (station_result predict sc s sub) =
  [base * (500 # 500); base * (485 # 500); base * (470 # 500);
   base * (455 # 500); base * (440 # 500); base * (85 # 100)].
Proof.
  intros base. rewrite station_result_predictions, X_future_repeat.
  apply adjusted_pred_six.
Qed.

(** The closed form [1 - 0.15 * i / 5] and the samples of
    [np.linspace(1, 0.85, 6)] over the rationals. *)
Lemma linspace_closed_form :
  Forall2 Qeq (linspace (R:=Q) (of_int 1) (decimal 85 100) 6)
          (map (fun i => 1 - (15 # 100) * inject_Z i / 5)
               [0; 1; 2; 3; 4; 5]%Z) /\
  Forall2 Qeq (map (fun i => 1 - (15 # 100) * inject_Z i / 5)
                   [0; 1; 2; 3; 4; 5]%Z)
          [1; 97 # 100; 94 # 100; 91 # 100; 88 # 100; 85 # 100].
Proof. rewrite linspace_value. split; repeat constructor. Qed.

(** In binary64 the closed form [1 - 0.15 * i / 5] evaluates to the doubles
    nearest to 1, 0.97, 0.94, 0.91, 0.88 and 0.85, and so do the samples of
    [np.linspace(1, 0.85, 6)] except the fourth, which is the next double
    below the one nearest to 0.91: there the two differ by one unit in the
    last place. *)
Lemma damping_binary64 :
  map (fun i => (of_int 1 - decimal 15 100 * of_int i / of_int 5)%num)
      [0; 1; 2; 3; 4; 5]%Z =
  [1%float; decimal 97 100; decimal 94 100; decimal 91 100; decimal 88 100;
   decimal 85 100] /\
  linspace (R:=float) (of_int 1) (decimal 85 100) 6 =
  [1%float; decimal 97 100; decimal 94 100;
   PrimFloat.next_down (decimal 91 100); decimal 88 100; decimal 85 100].
Proof. split; reflexivity. Qed.

(** C3, as the code has it: in every entry of [results] the stored
    predictions are the six raw predictions of the station times, index by
    index, the samples of [np.linspace(1, 0.85, 6)].  Over the rationals these
    factors are [1 - 0.15 * i / 5], that is [1, 0.97, 0.94, 0.91, 0.88, 0.85].
    In binary64 they are the doubles nearest to 1, 0.97, 0.94, 0.88 and 0.85
    and, at index 3, the next double below the one nearest to 0.91.  In both
    the sequence is non-increasing. *)
Theorem damping_of_station_forecasts :
  (forall (predict : features Q -> Q) (sc : scenario)
          (df : list (reading Q)),
      Forall (fun r =>
                Forall2 Qeq (predictions r)
                  (vec_mul
                     (model_predict predict
                        (X_future
                           (mean_features (rows_of df (r_stasiun r))) sc))
                     (map (fun i => 1 - (15 # 100) * inject_Z i / 5)
                          [0; 1; 2; 3; 4; 5]%Z)))
             (station_results (predict_future_aqi predict sc df))) /\
  Forall2 Qeq (map (fun i => 1 - (15 # 100) * inject_Z i / 5)
                   [0; 1; 2; 3; 4; 5]%Z)
          [1; 97 # 100; 94 # 100; 91 # 100; 88 # 100; 85 # 100] /\
  StronglySorted (fun a b => b <= a)
                 (linspace (R:=Q) (of_int 1) (decimal 85 100) 6) /\
  (forall (predict : features float -> float) (sc : scenario)
          (df : list (reading float)),
      Forall (fun r =>
                predictions r =
                vec_mul
                  (model_predict predict
                     (X_future (mean_features (rows_of df (r_stasiun r))) sc))
                  [1%float; decimal 97 100; decimal 94 100;
                   PrimFloat.next_down (decimal 91 100); decimal 88 100;
                   decimal 85 100])
             (station_results (predict_future_aqi predict sc df))) /\
  StronglySorted (fun a b => PrimFloat.leb b a = true)
                 (linspace (R:=float) (of_int 1) (decimal 85 100) 6).
Proof.
  split; [|split; [|split; [|split]]].
  - intros predict sc df. rewrite station_results_spec.
    apply Forall_forall; intros r Hr.
    apply in_map_iff in Hr as (s & <- & _).
    rewrite station_result_stasiun, station_predictions, X_future_repeat.
    cbn [repeat model_predict map vec_mul].
    repeat constructor; (apply Qmult_comp; reflexivity).
  - apply linspace_closed_form.
  - rewrite linspace_value. repeat constructor; discriminate.
  - intros predict sc df. rewrite station_results_spec.
    apply Forall_forall; intros r Hr.
    apply in_map_iff in Hr as (s & <- & _).
    rewrite station_result_stasiun, station_result_predictions,
      X_future_repeat.
    unfold adjusted_pred. cbn [repeat model_predict map List.length].
    now rewrite (proj2 damping_binary64).
  - rewrite (proj2 damping_binary64). repeat constructor.
Qed.

(** With every slider at 0, a one-station table with means
    [[50, 40, 10, 5, 20, 30]] and the sum of the pollutants as the regressor,
    the raw prediction is 155 in every year.  In binary64 the factor the
    script applies in 2028 is below the double nearest to 0.91, which the
    closed form [1 - 0.15 * 3 / 5] gives, and the stored prediction
    141.04999999999998 is below [155 * 0.91 = 141.05000000000001]. *)
Lemma damping_fourth_factor_below_closed_form :
  station_results
    (predict_future_aqi (R:=float) sum_regressor (Scenario 0 0 0 0)
                        one_station_table) = [binary64_forecast] /\
  PrimFloat.ltb (nth 3 (linspace (R:=float) (of_int 1) (decimal 85 100) 6)
                     (of_int 0))
                (decimal 91 100) = true /\
  PrimFloat.ltb (nth 3 (linspace (R:=float) (of_int 1) (decimal 85 100) 6)
                     (of_int 0))
                (of_int 1 - decimal 15 100 * of_int 3 / of_int 5)%num = true /\
  PrimFloat.ltb (nth 3 (predictions binary64_forecast) (of_int 0))
                (of_int 155 * decimal 91 100)%num = true /\
  PrimFloat.ltb (nth 3 (predictions binary64_forecast) (of_int 0))
                (of_int 155 *
                 (of_int 1 - decimal 15 100 * of_int 3 / of_int 5))%num = true.
Proof. repeat split. Qed.

(** C5: every entry of [results] carries six predictions, and its [avg_aqi]
    is their arithmetic mean: the two are equal, hence within a relative
    tolerance of 1e-9. *)
Theorem avg_aqi_is_mean (predict : features Q -> Q) (sc : scenario)
  (df : list (reading Q)) :
  Forall (fun r =>
            exists p0 p1 p2 p3 p4 p5 : Q,
              predictions r = [p0; p1; p2; p3; p4; p5] /\
              avg_aqi r == (p0 + p1 + p2 + p3 + p4 + p5) / 6 /\
              Qabs (avg_aqi r - (p0 + p1 + p2 + p3 + p4 + p5) / 6) <=
              (1 # 1000000000) * Qabs ((p0 + p1 + p2 + p3 + p4 + p5) / 6))
         (station_results (predict_future_aqi predict sc df)).
Proof.
  rewrite station_results_spec. apply Forall_forall; intros r Hr.
  apply in_map_iff in Hr as (s & <- & _).
  rewrite station_result_avg_aqi, station_predictions.
  do 6 eexists. split; [reflexivity|].
  match goal with |- ?a == ?m /\ _ => assert (E : a == m) end.
  { unfold np_mean, np_sum. simpl fold_left. simpl List.length.
    cbn [add div of_int Q_number]. apply Qdiv_comp; [|reflexivity].
    ring. }
  split; [exact E|].
  rewrite E.
  match goal with
  | |- Qabs (?m - ?m) <= _ => setoid_replace (m - m) with 0 by ring
  end.
  apply Qmult_le_0_compat; [discriminate | apply Qabs_nonneg].
Qed.

(** C10: for every entry of [results] whose base prediction is non-negative,
    the six raw predictions are one and the same value, the six stored
    predictions are that value times 1, 0.97, 0.94, 0.91, 0.88 and 0.85, and
    they are non-increasing from 2025 to 2030. *)
Theorem damped_trajectory_non_increasing (predict : features Q -> Q)
  (sc : scenario) (df : list (reading Q)) (r : result Q) :
  In r (station_results (predict_future_aqi predict sc df)) ->
  0 <= predict (projected (mean_features (rows_of df (r_stasiun r))) sc) ->
  exists base : Q,
    model_predict predict
      (X_future (mean_features (rows_of df (r_stasiun r))) sc) =
      repeat base 6 /\
    Forall2 Qeq (predictions r)
            (map (Qmult base)
                 [1; 97 # 100; 94 # 100; 91 # 100; 88 # 100; 85 # 100]) /\
    StronglySorted (fun a b => b <= a) (predictions r).
Proof.
  intros Hr. rewrite station_results_spec in Hr.
  apply in_map_iff in Hr as (s & <- & _).
  rewrite station_result_stasiun, station_predictions.
  set (base := predict _). intros Hbase.
  exists base. split; [|split].
  - now rewrite X_future_repeat.
  - repeat constructor; (apply Qmult_comp; reflexivity).
  - repeat constructor; lra.
Qed.

Lemma damped_trajectory_non_increasing_witness :
  exists base : Q,
    model_predict example_regressor
      (X_future (mean_features (rows_of example_table
                                        (Name "DKI1 (Bunderan HI)")))
                default_scenario) = repeat base 6 /\
    Forall2 Qeq
      (predictions (station_result example_regressor default_scenario
                      (Name "DKI1 (Bunderan HI)")
                      (rows_of example_table (Name "DKI1 (Bunderan HI)"))))
      (map (Qmult base)
           [1; 97 # 100; 94 # 100; 91 # 100; 88 # 100; 85 # 100]) /\
    StronglySorted (fun a b => b <= a)
      (predictions (station_result example_regressor default_scenario
                      (Name "DKI1 (Bunderan HI)")
                      (rows_of example_table (Name "DKI1 (Bunderan HI)")))).
Proof.
  apply (damped_trajectory_non_increasing example_regressor default_scenario
           example_table
           (station_result example_regressor default_scenario
              (Name "DKI1 (Bunderan HI)")
              (rows_of example_table (Name "DKI1 (Bunderan HI)")))).
  - left. reflexivity.
  - vm_compute. discriminate.
Defined.

(** ** The Risk Classifier *)

Lemma Qltb_lt (x y : Q) : Qltb x y = true <-> x < y.
Proof.
  unfold Qltb. rewrite negb_true_iff, <- not_true_iff_false, Qle_bool_iff.
  split; [apply Qnot_le_lt | apply Qlt_not_le].
Qed.

Lemma Qltb_ge (x y : Q) : Qltb x y = false <-> y <= x.
Proof.
  unfold Qltb. rewrite negb_false_iff. apply Qle_bool_iff.
Qed.

(** C4: the marker colour is the colour of LOW exactly when the value is
    below 50, of MODERATE exactly when it is at least 50 and below 100, and of
    HIGH exactly when it is at least 100; every value falls in exactly one
    band, and 50 is MODERATE and 100 is HIGH. *)
Theorem risk_bands (x : Q) :
  (color x = band_color LOW <-> x < 50) /\
  (color x = band_color MODERATE <-> 50 <= x /\ x < 100) /\
  (color x = band_color HIGH <-> 100 <= x) /\
  (exists b, color x = band_color b /\
             forall b', color x = band_color b' -> b' = b) /\
  color (R:=Q) 50 = band_color MODERATE /\
  color (R:=Q) 100 = band_color HIGH /\
  color (R:=Q) (49999 # 1000) = band_color LOW /\
  color (R:=Q) (99999 # 1000) = band_color MODERATE.
Proof.
  assert (Hcases :
    (x < 50 /\ color x = band_color LOW) \/
    ((50 <= x /\ x < 100) /\ color x = band_color MODERATE) \/
    (100 <= x /\ color x = band_color HIGH)).
  { unfold color. cbn [lt of_int Q_number].
    change (inject_Z 50) with 50. change (inject_Z 100) with 100.
    destruct (Qltb x 50) eqn:E50; [|destruct (Qltb x 100) eqn:E100].
    - left. apply Qltb_lt in E50. now split.
    - right; left. apply Qltb_ge in E50. apply Qltb_lt in E100. now split.
    - right; right. apply Qltb_ge in E100. now split. }
  split; [|split; [|split; [|split]]].
  - destruct Hcases as [[Hx ->]|[[[Hlo Hhi] ->]|[Hx ->]]];
      split; intros; try discriminate; try reflexivity; lra.
  - destruct Hcases as [[Hx ->]|[[[Hlo Hhi] ->]|[Hx ->]]];
      split; try (intros [? ?]); try discriminate; try reflexivity;
      try lra; now split.
  - destruct Hcases as [[Hx ->]|[[[Hlo Hhi] ->]|[Hx ->]]];
      split; intros; try discriminate; try reflexivity; lra.
  - destruct Hcases as [[Hx ->]|[[[Hlo Hhi] ->]|[Hx ->]]];
      [exists LOW | exists MODERATE | exists HIGH];
      (split; [reflexivity|]); intros [| |]; (reflexivity || discriminate).
  - repeat split.
Qed.

(** In binary64 the four values the specification lists fall in the same
    bands; a NaN, which compares below nothing, is coloured as HIGH. *)
Lemma risk_bands_binary64 :
  color (decimal 49999 1000 : float) = band_color LOW /\
  color (of_int 50 : float) = band_color MODERATE /\
  color (decimal 99999 1000 : float) = band_color MODERATE /\
  color (of_int 100 : float) = band_color HIGH /\
  color PrimFloat.nan = band_color HIGH.
Proof. repeat split. Qed.

(** ** Stations without readings, and scenarios out of range *)

(** A station name that does not occur in the table is not visited by the
    loop: it gets neither an entry in [results] nor a warning. *)
Lemma absent_station_unvisited {R : Type} `{Number R}
  (predict : features R -> R) (sc : scenario) (df : list (reading R))
  (s : station) :
  ~ In s (map stasiun df) ->
  ~ In s (map r_stasiun (station_results (predict_future_aqi predict sc df))) /\
  ~ In (No_data_skipping s) (warnings (predict_future_aqi predict sc df)).
Proof.
  intros Habsent; split.
  - rewrite forecast_stations. intros Hin.
    apply filter_In in Hin as [Hin _]. now apply unique_from_In in Hin.
  - rewrite warnings_spec. intros Hin.
    apply in_map_iff in Hin as (s' & E & Hin). injection E as ->.
    apply filter_In in Hin as [Hin _]. now apply unique_from_In in Hin.
Qed.

(** * Further properties of the script *)

(** ** The stations of a run *)

Lemma station_same_eq (a b : station) : station_same a b = true <-> a = b.
Proof.
  destruct a as [s|], b as [t|]; simpl; split; intros E;
    try discriminate; try reflexivity.
  - apply String.eqb_eq in E; now subst.
  - injection E as ->. apply String.eqb_refl.
Qed.

Lemma existsb_same_In (x : station) (l : list station) :
  existsb (station_same x) l = true <-> In x l.
Proof.
  rewrite existsb_exists; split.
  - intros (y & Hy & E). apply station_same_eq in E. now subst.
  - intros Hx. exists x; split; [assumption | now apply station_same_eq].
Qed.

Lemma unique_from_spec (seen l : list station) (x : station) :
  In x (unique_from seen l) <-> In x l /\ ~ In x seen.
Proof.
  revert seen; induction l as [|y l IH]; intros seen; simpl; [tauto|].
  destruct (existsb (station_same y) seen) eqn:E.
  - apply existsb_same_In in E. rewrite IH. split.
    + intros [Hl Hs]; tauto.
    + intros [[->|Hl] Hs]; [contradiction | tauto].
  - assert (Hy : ~ In y seen)
      by (rewrite <- existsb_same_In, E; discriminate).
    simpl. rewrite IH. simpl. split.
    + intros [->|[Hl Hs]]; [tauto|]. split; [tauto|]. intros Hx; tauto.
    + intros [[->|Hl] Hs]; [now left|].
      destruct (station_same y x) eqn:Eyx.
      * apply station_same_eq in Eyx. now left.
      * right. split; [assumption|]. intros [->|Hx]; [|contradiction].
        rewrite (proj2 (station_same_eq x x) eq_refl) in Eyx. discriminate.
Qed.

Lemma unique_from_NoDup (seen l : list station) : NoDup (unique_from seen l).
Proof.
  revert seen; induction l as [|y l IH]; intros seen; simpl; [constructor|].
  destruct (existsb (station_same y) seen); [apply IH|].
  constructor; [|apply IH].
  rewrite unique_from_spec. intros [_ Hy]. apply Hy. now left.
Qed.

Lemma unique_In (l : list station) (x : station) : In x (unique l) <-> In x l.
Proof. unfold unique. rewrite unique_from_spec. simpl. tauto. Qed.

Lemma NoDup_filter {A : Type} (p : A -> bool) (l : list A) :
  NoDup l -> NoDup (filter p l).
Proof.
  induction 1 as [|x l Hx Hl IH]; simpl; [constructor|].
  destruct (p x); [|assumption].
  constructor; [|assumption]. rewrite filter_In. tauto.
Qed.

Section Stations.

Context {R : Type} `{Number R}.
Variable predict : features R -> R.

Lemma has_rows_named (df : list (reading R)) (s : station) :
  In s (map stasiun df) ->
  has_rows df s = true <-> exists n, s = Name n.
Proof.
  intros Hin. destruct s as [n|].
  - rewrite (named_station_has_rows df n Hin). split; [eauto | reflexivity].
  - unfold has_rows. rewrite missing_has_no_rows.
    split; [discriminate | intros (n & E); discriminate].
Qed.

Lemma rows_of_app (df extra : list (reading R)) (s : station) :
  rows_of (df ++ extra) s = rows_of df s ++ rows_of extra s.
Proof. unfold rows_of. apply filter_app. Qed.

Lemma rows_of_none (extra : list (reading R)) (s : station) :
  (forall e, In e extra -> station_eqb (stasiun e) s = false) ->
  rows_of extra s = [].
Proof.
  unfold rows_of. induction extra as [|e extra IH]; intros Hno; simpl.
  - reflexivity.
  - rewrite (Hno e (or_introl eq_refl)). apply IH.
    intros e' He'. apply Hno. now right.
Qed.

Lemma forecast_stations_In (sc : scenario) (df : list (reading R))
  (s : station) :
  In s (map r_stasiun (station_results (predict_future_aqi predict sc df)))
  <-> (exists n, s = Name n) /\ In s (map stasiun df).
Proof.
  rewrite forecast_stations, filter_In, unique_In. split.
  - intros [Hin Hrows]. split; [|assumption].
    now apply (has_rows_named df s Hin).
  - intros [Hn Hin]. split; [assumption|].
    now apply (has_rows_named df s Hin).
Qed.

Lemma forecast_stations_NoDup (sc : scenario) (df : list (reading R)) :
  NoDup (map r_stasiun (station_results (predict_future_aqi predict sc df))).
Proof. rewrite forecast_stations. apply NoDup_filter, unique_from_NoDup. Qed.

(** X1: every station named in the table gets exactly one entry of
    [results], however many rows it has, and nothing else gets one: the
    stations of [results] are without repetition, and they are the named
    stations of the [stasiun] column. *)
Theorem one_forecast_per_station (sc : scenario) (df : list (reading R)) :
  NoDup (map r_stasiun (station_results (predict_future_aqi predict sc df))) /\
  forall s,
    In s (map r_stasiun (station_results (predict_future_aqi predict sc df)))
    <-> (exists n, s = Name n) /\ In s (map stasiun df).
Proof.
  split; [apply forecast_stations_NoDup | apply forecast_stations_In].
Qed.

Lemma filter_only (p : station -> bool) (a : station) (l : list station) :
  NoDup l ->
  (forall x, In x l -> (p x = true <-> x = a)) ->
  filter p l = if existsb (station_same a) l then [a] else [].
Proof.
  induction 1 as [|x l Hx Hl IH]; intros Hp; simpl; [reflexivity|].
  assert (IH' : filter p l = if existsb (station_same a) l then [a] else [])
    by (apply IH; intros y Hy; apply Hp; now right).
  destruct (p x) eqn:Epx.
  - apply (Hp x (or_introl eq_refl)) in Epx. subst x.
    rewrite (proj2 (station_same_eq a a) eq_refl). simpl.
    rewrite IH'. destruct (existsb (station_same a) l) eqn:E; [|reflexivity].
    apply existsb_same_In in E. contradiction.
  - destruct (station_same a x) eqn:Eax; simpl; [|exact IH'].
    apply station_same_eq in Eax. subst x.
    rewrite (proj2 (Hp a (or_introl eq_refl)) eq_refl) in Epx. discriminate.
Qed.

(** X2: a run shows at most one warning: the one for the missing station,
    when some row of the table has no station, and none otherwise. *)
Theorem warning_only_for_missing_station (sc : scenario)
  (df : list (reading R)) :
  warnings (predict_future_aqi predict sc df) =
  if existsb (station_same Missing) (map stasiun df)
  then [No_data_skipping Missing] else [].
Proof.
  rewrite warnings_spec.
  rewrite (filter_only (fun s => negb (has_rows df s)) Missing).
  - assert (E : existsb (station_same Missing) (unique (map stasiun df)) =
                existsb (station_same Missing) (map stasiun df)).
    { apply eq_true_iff_eq. rewrite !existsb_same_In. apply unique_In. }
    rewrite E.
    destruct (existsb (station_same Missing) (map stasiun df)); reflexivity.
  - apply unique_from_NoDup.
  - intros x Hx. apply (proj1 (unique_In _ _)) in Hx. rewrite negb_true_iff.
    destruct x as [n|].
    + rewrite (named_station_has_rows df n Hx).
      split; intros E; discriminate.
    + unfold has_rows. rewrite missing_has_no_rows. tauto.
Qed.

(** X3: readings of other stations do not touch a station's forecast: an
    entry of [results] is still an entry when rows of stations other than its
    own are appended to the table. *)
Theorem other_stations_rows_do_not_matter (sc : scenario)
  (df extra : list (reading R)) (r : result R) :
  In r (station_results (predict_future_aqi predict sc df)) ->
  (forall e, In e extra -> station_eqb (stasiun e) (r_stasiun r) = false) ->
  In r (station_results (predict_future_aqi predict sc (df ++ extra))).
Proof.
  rewrite !station_results_spec. intros Hr Hother.
  apply in_map_iff in Hr as (s & <- & Hs).
  rewrite station_result_stasiun in Hother.
  apply filter_In in Hs as [Hs Hrows]. apply (proj1 (unique_In _ _)) in Hs.
  assert (E : rows_of (df ++ extra) s = rows_of df s).
  { rewrite rows_of_app, (rows_of_none extra s Hother). apply app_nil_r. }
  apply in_map_iff. exists s. split; [now rewrite E|].
  apply filter_In. split.
  - apply unique_In. rewrite map_app. apply in_or_app. now left.
  - unfold has_rows in *. now rewrite E.
Qed.

End Stations.

(** ** Stations without readings *)

Lemma without_absent {R : Type} `{Number R} (df : list (reading R))
  (n : string) :
  rows_of df (Name n) = [] -> without (Name n) df = df.
Proof.
  unfold rows_of, without. induction df as [|r df IH]; simpl; [reflexivity|].
  destruct (stasiun r) as [m|]; simpl.
  - destruct (String.eqb m n); simpl; [discriminate|].
    intros E. now rewrite IH.
  - intros E. now rewrite IH.
Qed.

(** C8, as the code has it: a station that has no readings in the table gets
    no entry in [results], and the entries of [results] are those the same
    table yields without that station; when the station occurs in the
    [stasiun] column, which without readings only a missing value does, the
    run shows the warning for it and goes on. *)
Theorem empty_station_skipped {R : Type} `{Number R}
  (predict : features R -> R) (sc : scenario) (df : list (reading R))
  (s : station) :
  rows_of df s = [] ->
  ~ In s (map r_stasiun (station_results (predict_future_aqi predict sc df))) /\
  station_results (predict_future_aqi predict sc df) =
  station_results (predict_future_aqi predict sc (without s df)) /\
  (In s (map stasiun df) ->
   In (No_data_skipping s) (warnings (predict_future_aqi predict sc df))).
Proof.
  intros Hempty.
  assert (Hnone : has_rows df s = false)
    by (unfold has_rows; now rewrite Hempty).
  split; [|split].
  - rewrite forecast_stations. intros Hin.
    apply filter_In in Hin as [_ Hin]. congruence.
  - destruct s as [n|].
    + now rewrite (without_absent df n Hempty).
    + symmetry. apply station_results_without_missing.
  - intros Hin. rewrite warnings_spec. apply in_map, filter_In.
    split; [now apply unique_In | now rewrite Hnone].
Qed.

Lemma empty_station_skipped_witness :
  ~ In Missing
      (map r_stasiun
           (station_results
              (predict_future_aqi example_regressor default_scenario
                                  example_table))) /\
  station_results
    (predict_future_aqi example_regressor default_scenario example_table) =
  station_results
    (predict_future_aqi example_regressor default_scenario
                        (without Missing example_table)) /\
  In (No_data_skipping Missing)
     (warnings
        (predict_future_aqi example_regressor default_scenario
                            example_table)).
Proof.
  destruct (empty_station_skipped example_regressor default_scenario
              example_table Missing) as (Hout & Hsame & Hwarn).
  - reflexivity.
  - split; [exact Hout|]. split; [exact Hsame|].
    apply Hwarn. right. left. reflexivity.
Defined.

(** DKI3 is a station of the registry.  On a table that holds readings of
    DKI1 only it has no readings and gets no entry in [results], and the run
    shows no warning at all. *)
Lemma registry_station_dropped_silently :
  In "DKI3 (Jagakarsa)"%string (map fst (station_coords (R:=Q))) /\
  rows_of (one_station_table (R:=Q)) (Name "DKI3 (Jagakarsa)") = [] /\
  map r_stasiun
      (station_results
         (predict_future_aqi example_regressor default_scenario
                             one_station_table)) =
  [Name "DKI1 (Bunderan HI)"] /\
  warnings
    (predict_future_aqi example_regressor default_scenario
                        one_station_table) = [] /\
  ~ In (No_data_skipping (Name "DKI3 (Jagakarsa)"))
       (warnings
          (predict_future_aqi example_regressor default_scenario
                              one_station_table)).
Proof.
  split; [|split; [|split; [|split]]].
  - simpl. tauto.
  - reflexivity.
  - reflexivity.
  - reflexivity.
  - intros [].
Qed.

Lemma other_stations_rows_do_not_matter_witness :
  In (station_result example_regressor default_scenario
        (Name "DKI1 (Bunderan HI)")
        (rows_of example_table (Name "DKI1 (Bunderan HI)")))
     (station_results
        (predict_future_aqi example_regressor default_scenario
           (example_table ++
            [Reading (Name "DKI2 (Kelapa Gading)") example_mean]))).
Proof.
  apply (other_stations_rows_do_not_matter example_regressor default_scenario
           example_table
           [Reading (Name "DKI2 (Kelapa Gading)") example_mean]).
  - left. reflexivity.
  - intros e [<-|[]]. reflexivity.
Defined.

(** ** The registry of coordinates *)

Section Registry.

Context {R : Type} `{Number R}.
Variable predict : features R -> R.

Lemma coords_get_default (d : list (string * (R * R))) (k : station)
  (default : R * R) :
  (forall name, k = Name name -> ~ In name (map fst d)) ->
  coords_get d k default = default.
Proof.
  induction d as [|[name v] d IH]; intros Hk; simpl; [reflexivity|].
  destruct (station_same k (Name name)) eqn:E.
  - apply station_same_eq in E. exfalso. apply (Hk name E). now left.
  - apply IH. intros n En Hin. apply (Hk n En). now right.
Qed.

Lemma station_result_coords (sc : scenario) (s : station)
  (sub : list (reading R)) :
  (latitude (station_result predict sc s sub),
   longitude (station_result predict sc s sub)) =
  coords_get station_coords s (decimal (-62) 10, decimal 1068 10).
Proof.
  unfold station_result.
  destruct (coords_get _ _ _) as [lat lon]; reflexivity.
Qed.

(** X4: a forecast of one of the five registered stations is placed at the
    coordinates the registry gives that station; a forecast of any other
    station, the missing one included, is placed at the default
    (-6.2, 106.8). *)
Theorem forecast_location (sc : scenario) (sub : list (reading R)) :
  (forall name lat lon,
      In (name, (lat, lon)) station_coords ->
      latitude (station_result predict sc (Name name) sub) = lat /\
      longitude (station_result predict sc (Name name) sub) = lon) /\
  (forall s,
      (forall name, s = Name name -> ~ In name (map fst station_coords)) ->
      latitude (station_result predict sc s sub) = decimal (-62) 10 /\
      longitude (station_result predict sc s sub) = decimal 1068 10).
Proof.
  split.
  - intros name lat lon Hin. simpl in Hin.
    destruct Hin as [Hin|[Hin|[Hin|[Hin|[Hin|[]]]]]];
      injection Hin as <- <- <-; split; reflexivity.
  - intros s Hs.
    pose proof (station_result_coords sc s sub) as E.
    rewrite (coords_get_default station_coords s _ Hs) in E.
    injection E as -> ->. split; reflexivity.
Qed.

End Registry.

(** ** The damping trend on vectors of any length *)

Section Trend.

Context {R : Type} `{Number R}.
Local Open Scope num_scope.

Lemma arange_length (num : nat) : List.length (arange (R:=R) num) = num.
Proof. unfold arange. now rewrite length_map, length_seq. Qed.

Lemma linspace_length (start stop : R) (num : nat) :
  List.length (linspace start stop num) = num.
Proof.
  unfold linspace. destruct (num - 1)%nat eqn:E.
  - now rewrite length_map, arange_length.
  - rewrite length_app, removelast_firstn_len, length_firstn, length_map,
      arange_length.
    simpl. lia.
Qed.

Lemma vec_mul_length (a b : list R) :
  List.length a = List.length b ->
  List.length (vec_mul a b) = List.length a.
Proof.
  revert b; induction a as [|x a IH]; intros [|y b]; simpl; try congruence.
  intros E; f_equal; apply IH; congruence.
Qed.

Lemma adjusted_pred_length (base_pred : list R) :
  List.length (adjusted_pred base_pred) = List.length base_pred.
Proof.
  unfold adjusted_pred. apply vec_mul_length.
  now rewrite linspace_length.
Qed.

Lemma predictions_length (predict : features R -> R) (sc : scenario)
  (s : station) (sub : list (reading R)) :
  List.length (predictions (station_result predict sc s sub)) = 6%nat.
Proof.
  rewrite station_result_predictions, adjusted_pred_length, X_future_repeat.
  reflexivity.
Qed.

(** X6: the damping keeps the number of predictions, whatever number the
    regressor returns; so every entry of [results] carries one prediction per
    forecast year, in any arithmetic. *)
Theorem one_prediction_per_year (predict : features R -> R) (sc : scenario)
  (df : list (reading R)) :
  (forall base_pred,
      List.length (adjusted_pred base_pred) = List.length base_pred) /\
  Forall (fun r => List.length (predictions r) = List.length future_years)
         (station_results (predict_future_aqi predict sc df)).
Proof.
  split; [apply adjusted_pred_length|].
  rewrite station_results_spec. apply Forall_forall. intros r Hr.
  apply in_map_iff in Hr as (s & <- & _). apply predictions_length.
Qed.

End Trend.

(** ** Averages and colours over the rationals *)

(** X8: the average shown in the table is 0.925 times the station's base
    prediction, and the prediction of 2030 is 0.85 times that of 2025,
    whatever the scenario and the regressor. *)
Theorem avg_aqi_of_base (predict : features Q -> Q) (sc : scenario)
  (df : list (reading Q)) :
  Forall (fun r =>
            let base :=
              predict (projected (mean_features (rows_of df (r_stasiun r)))
                                 sc) in
            avg_aqi r == (925 # 1000) * base /\
            nth 5 (predictions r) 0 == (85 # 100) * nth 0 (predictions r) 0)
         (station_results (predict_future_aqi predict sc df)).
Proof.
  rewrite station_results_spec. apply Forall_forall; intros r Hr.
  apply in_map_iff in Hr as (s & <- & _).
  rewrite station_result_avg_aqi, station_result_stasiun, station_predictions.
  cbv zeta. set (base := predict _). split.
  - unfold np_mean, np_sum. simpl fold_left. simpl List.length.
    cbn [add div of_int Q_number]. change (inject_Z 0) with 0.
    change (inject_Z (Z.of_nat 6)) with 6. field.
  - simpl nth. ring.
Qed.

Lemma color_monotone (a b : Q) :
  b <= a ->
  (color a = "green"%string -> color b = "green"%string) /\
  (color b = "red"%string -> color a = "red"%string).
Proof.
  intros Hba. unfold color. cbn [lt of_int Q_number].
  change (inject_Z 50) with 50. change (inject_Z 100) with 100.
  destruct (Qltb a 50) eqn:Ea50; destruct (Qltb a 100) eqn:Ea100;
    destruct (Qltb b 50) eqn:Eb50; destruct (Qltb b 100) eqn:Eb100;
    split; intros E; try discriminate; try reflexivity; exfalso;
    rewrite ?Qltb_lt, ?Qltb_ge in *; lra.
Qed.

(** X9: the colour of a station's marker never worsens from a year to a later
    one: for a non-negative base prediction, a marker that is green in a year
    is green in every later year, and one that is red in a year was red in
    every earlier year. *)
Theorem marker_colour_never_worsens (predict : features Q -> Q)
  (sc : scenario) (df : list (reading Q)) (r : result Q) (i j : nat)
  (a b : Q) :
  In r (station_results (predict_future_aqi predict sc df)) ->
  0 <= predict (projected (mean_features (rows_of df (r_stasiun r))) sc) ->
  (i <= j)%nat ->
  nth_error (predictions r) i = Some a ->
  nth_error (predictions r) j = Some b ->
  (color a = "green"%string -> color b = "green"%string) /\
  (color b = "red"%string -> color a = "red"%string).
Proof.
  intros Hr. rewrite station_results_spec in Hr.
  apply in_map_iff in Hr as (s & <- & _).
  rewrite station_result_stasiun, station_predictions.
  set (base := predict _). intros Hbase Hij Ha Hb.
  apply color_monotone.
  destruct i as [|[|[|[|[|[|i]]]]]]; simpl in Ha; try discriminate;
    try (destruct i; discriminate); injection Ha as <-;
    destruct j as [|[|[|[|[|[|j]]]]]]; simpl in Hb; try discriminate;
    try (destruct j; discriminate); injection Hb as <-;
    try lia; lra.
Qed.

Lemma marker_colour_never_worsens_witness :
  (color (nth 0 (predictions strict_forecast) 0) = "green"%string ->
   color (nth 5 (predictions strict_forecast) 0) = "green"%string) /\
  (color (nth 5 (predictions strict_forecast) 0) = "red"%string ->
   color (nth 0 (predictions strict_forecast) 0) = "red"%string).
Proof.
  apply (marker_colour_never_worsens example_regressor
           (Scenario 100 80 100 100) example_table strict_forecast 0 5).
  - left. reflexivity.
  - vm_compute. discriminate.
  - lia.
  - reflexivity.
  - reflexivity.
Defined.

(** That forecast is green in 2025, so that it is green in 2030. *)
Lemma strict_forecast_green :
  color (nth 0 (predictions strict_forecast) 0) = "green"%string /\
  color (nth 5 (predictions strict_forecast) 0) = "green"%string.
Proof. split; reflexivity. Qed.

(** ** The session, the chart and the map *)

Lemma year_buttons_spec (ev : interaction) (selected_year : Z) :
  year_buttons ev selected_year =
  match ev with
  | Press_year year =>
      if ((2025 <=? year) && (year <=? 2030))%Z then year else selected_year
  | _ => selected_year
  end.
Proof.
  unfold year_buttons, years. destruct ev as [|year|]; simpl; try reflexivity.
  repeat match goal with
         | |- context [Z.eqb year ?c] => destruct (Z.eqb_spec year c)
         end; subst; try reflexivity;
    destruct ((2025 <=? year) && (year <=? 2030))%Z eqn:E;
    try reflexivity; lia.
Qed.

Lemma year_buttons_range (ev : interaction) (selected_year : Z) :
  (2025 <= selected_year <= 2030)%Z ->
  (2025 <= year_buttons ev selected_year <= 2030)%Z.
Proof.
  intros Hsel. rewrite year_buttons_spec. destruct ev as [|year|]; try lia.
  destruct ((2025 <=? year) && (year <=? 2030))%Z eqn:E; lia.
Qed.

Section DisplayFacts.

Context {R : Type} `{Number R}.
Variable predict : features R -> R.
Variable df : list (reading R).

Lemma dict_set_fresh (d : list (station * list R)) (k : station)
  (v : list R) :
  ~ In k (map fst d) -> dict_set d k v = d ++ [(k, v)].
Proof.
  induction d as [|[k' v'] d IH]; intros Hk; simpl; [reflexivity|].
  destruct (station_same k k') eqn:E.
  - apply station_same_eq in E. exfalso. apply Hk. now left.
  - f_equal. apply IH. intros Hin. apply Hk. now right.
Qed.

Lemma fold_dict_set_distinct (rs : list (result R))
  (d : list (station * list R)) :
  NoDup (map r_stasiun rs) ->
  (forall r, In r rs -> ~ In (r_stasiun r) (map fst d)) ->
  fold_left (fun d row => dict_set d (r_stasiun row) (predictions row)) rs d =
  d ++ map (fun r => (r_stasiun r, predictions r)) rs.
Proof.
  revert d; induction rs as [|r rs IH]; intros d Hnd Hd; simpl.
  - now rewrite app_nil_r.
  - inversion Hnd as [|? ? Hr Hrs]; subst.
    rewrite dict_set_fresh by (apply Hd; now left).
    rewrite IH; [now rewrite <- app_assoc | assumption |].
    intros r' Hr'. rewrite map_app, in_app_iff. simpl.
    intros [Hin|[E|[]]].
    + apply (Hd r'); [now right | assumption].
    + apply Hr. rewrite E. now apply in_map.
Qed.

Lemma predictions_by_station_distinct (rs : list (result R)) :
  NoDup (map r_stasiun rs) ->
  predictions_by_station rs = map (fun r => (r_stasiun r, predictions r)) rs.
Proof.
  intros Hnd. unfold predictions_by_station.
  now rewrite fold_dict_set_distinct.
Qed.

Lemma frame_columns_six (d : list (station * list R)) :
  Forall (fun kv => List.length (snd kv) = 6%nat) d ->
  frame_columns d = Some d.
Proof.
  induction 1 as [|[k v] d Hv Hd IH]; simpl; [reflexivity|].
  simpl in Hv. unfold over_index. rewrite Hv, IH. reflexivity.
Qed.

Lemma line_data_spec (rs : list (result R)) :
  NoDup (map r_stasiun rs) ->
  Forall (fun r => List.length (predictions r) = 6%nat) rs ->
  line_data rs = Some (map (fun r => (r_stasiun r, predictions r)) rs).
Proof.
  intros Hnd Hlen. unfold line_data.
  rewrite predictions_by_station_distinct by assumption.
  apply frame_columns_six. apply Forall_forall. intros [k v] Hkv.
  apply in_map_iff in Hkv as (r & E & Hr). injection E as <- <-.
  rewrite Forall_forall in Hlen. now apply Hlen.
Qed.

Lemma melt_length (rs : list (result R)) :
  Forall (fun r => List.length (predictions r) = 6%nat) rs ->
  List.length (melt (map (fun r => (r_stasiun r, predictions r)) rs)) =
  (6 * List.length rs)%nat.
Proof.
  induction 1 as [|r rs Hr Hrs IH]; [reflexivity|].
  unfold melt in *. cbn [map flat_map fst snd].
  rewrite length_app, IH, length_map, length_combine, Hr.
  simpl. lia.
Qed.

Lemma combine_future_years (a : list R) (i : nat) (v : R) :
  nth_error a i = Some v ->
  (i < 6)%nat ->
  In (2025 + Z.of_nat i, v)%Z (combine future_years a).
Proof.
  intros Hv Hi. unfold future_years.
  destruct a as [|a0 [|a1 [|a2 [|a3 [|a4 [|a5 a]]]]]];
    destruct i as [|[|[|[|[|[|i]]]]]]; simpl in Hv; try discriminate;
    try lia; injection Hv as <-; simpl; tauto.
Qed.

(** Without a station labelled ["index"] the melt is the usual one. *)
Lemma df_long_plain (rs : list (result R))
  (chart : list (id_cell * station * R)) :
  NoDup (map r_stasiun rs) ->
  Forall (fun r => List.length (predictions r) = 6%nat) rs ->
  ~ In (Name "index") (map r_stasiun rs) ->
  df_long rs = Some chart ->
  chart = melt (map (fun r => (r_stasiun r, predictions r)) rs).
Proof.
  intros Hnd Hlen Hno. unfold df_long. rewrite line_data_spec by assumption.
  set (cols := map (fun r => (r_stasiun r, predictions r)) rs).
  assert (Hidx : forall kv, In kv cols -> labelled "index" kv = false).
  { intros [k v] Hkv. apply in_map_iff in Hkv as (r & E & Hr).
    injection E as <- <-. unfold labelled. cbn [fst].
    destruct (station_same (Name "index") (r_stasiun r)) eqn:Es;
      [|reflexivity].
    apply station_same_eq in Es. exfalso. apply Hno. rewrite Es.
    now apply in_map. }
  assert (E1 : existsb (labelled "index") cols = false).
  { destruct (existsb (labelled "index") cols) eqn:Ex; [|reflexivity].
    apply existsb_exists in Ex as (kv & Hkv & Ekv).
    rewrite (Hidx kv Hkv) in Ekv. discriminate. }
  rewrite E1. simpl.
  destruct (existsb (labelled "AQI") cols); [discriminate|].
  destruct (find (labelled "index") cols) as [[k ids]|] eqn:Ef.
  - apply find_some in Ef as [Hkv Ekv]. rewrite (Hidx _ Hkv) in Ekv.
    discriminate.
  - now intros [= <-].
Qed.

Lemma getitem_year (a : list R) (year : Z) :
  List.length a = 6%nat ->
  (2025 <= year <= 2030)%Z ->
  exists v, getitem a (year - 2025) = Some v /\
            nth_error a (Z.to_nat (year - 2025)) = Some v.
Proof.
  intros Ha Hy. unfold getitem. rewrite Ha.
  replace ((0 <=? year - 2025) && (year - 2025 <? Z.of_nat 6))%Z with true
    by (symmetry; apply andb_true_iff; split;
        [apply Z.leb_le | apply Z.ltb_lt]; lia).
  destruct (nth_error a (Z.to_nat (year - 2025))) as [v|] eqn:E.
  - exists v. now split.
  - apply nth_error_None in E. lia.
Qed.

(** What the map shows of a row in a year. *)
Lemma markers_of_spec (rs : list (result R)) (year : Z) :
  Forall (fun r => List.length (predictions r) = 6%nat) rs ->
  (2025 <= year <= 2030)%Z ->
  exists ms,
    markers_of year rs = Some ms /\
    Forall2 (fun m r =>
               marker_stasiun m = r_stasiun r /\
               marker_location m = (latitude r, longitude r) /\
               marker_year m = year /\
               marker_color m = color (marker_year_aqi m) /\
               nth_error (predictions r) (Z.to_nat (year - 2025)) =
               Some (marker_year_aqi m)) ms rs.
Proof.
  intros Hrs Hy. induction Hrs as [|r rs Hr Hrs (ms & Ems & Hms)].
  - exists []. split; [reflexivity | constructor].
  - destruct (getitem_year (predictions r) year Hr Hy) as (v & Eg & En).
    eexists. simpl. unfold marker_of. rewrite Eg, Ems. simpl.
    split; [reflexivity|]. constructor; [|assumption].
    simpl. repeat split; assumption.
Qed.

Lemma run_results_shape (sc : scenario) :
  NoDup (map r_stasiun (station_results (predict_future_aqi predict sc df))) /\
  Forall (fun r => List.length (predictions r) = 6%nat)
         (station_results (predict_future_aqi predict sc df)).
Proof.
  split.
  - apply forecast_stations_NoDup.
  - rewrite station_results_spec. apply Forall_forall. intros r Hr.
    apply in_map_iff in Hr as (s & <- & _). apply predictions_length.
Qed.

(** A run without a press of the predict button, from a well-formed
    session. *)
Lemma script_display (sc : scenario) (ev : interaction)
  (ss : session_state R) :
  predict_pressed ev = false ->
  well_formed predict df ss ->
  let out := script predict df sc ev ss in
  well_formed predict df (fst (fst out)) /\
  state_station_results (fst (fst out)) = state_station_results ss /\
  snd (fst out) = [] /\
  match snd out with
  | Info_page => state_station_results ss = None
  | Raised e => e = KeyError \/ e = ValueError
  | Results_page chart year markers =>
      exists rs,
        state_station_results ss = Some rs /\ rs <> [] /\
        state_selected_year (fst (fst out)) = Some year /\
        (2025 <= year <= 2030)%Z /\
        df_long rs = Some chart /\
        Forall2 (fun m r =>
                   marker_stasiun m = r_stasiun r /\
                   marker_location m = (latitude r, longitude r) /\
                   marker_year m = year /\
                   marker_color m = color (marker_year_aqi m) /\
                   nth_error (predictions r) (Z.to_nat (year - 2025)) =
                   Some (marker_year_aqi m)) markers rs
  end.
Proof.
  intros Ep Hwf. unfold script. rewrite Ep.
  destruct ss as [[rs|] sel]; unfold well_formed in Hwf; simpl in Hwf |- *.
  - destruct Hwf as [(sc0 & Ers) (y0 & Esel & Hy0)]. subst sel.
    assert (Hwf0 : well_formed predict df (Session (Some rs) (Some y0))).
    { unfold well_formed; simpl. split; [eauto|]. exists y0. now split. }
    destruct rs as [|r rs'].
    + simpl. split; [exact Hwf0|]. repeat split. now left.
    + destruct (run_results_shape sc0) as [Hnd Hlen]. rewrite <- Ers in *.
      destruct (df_long (r :: rs')) as [chart|] eqn:Echart.
      * pose proof (year_buttons_range ev y0 Hy0) as Hy.
        destruct (markers_of_spec (r :: rs') (year_buttons ev y0) Hlen Hy)
          as (ms & Ems & Hms).
        rewrite Ems. simpl.
        split; [|split; [reflexivity|split; [reflexivity|]]].
        -- unfold well_formed; simpl. split; [eauto|].
           exists (year_buttons ev y0). now split.
        -- exists (r :: rs'). split; [reflexivity|]. split; [discriminate|].
           split; [reflexivity|]. split; [assumption|].
           split; [assumption|]. exact Hms.
      * simpl. split; [exact Hwf0|]. repeat split. now right.
  - simpl. split; [exact Hwf|]. repeat split.
Qed.

(** A press of the predict button stores the forecast of the scenario and
    selects 2025; the rest of the run is that of the stored session. *)
Lemma script_predict (sc : scenario) (ss : session_state R) :
  let stored :=
    Session (Some (station_results (predict_future_aqi predict sc df)))
            (Some 2025%Z) in
  fst (fst (script predict df sc Press_predict ss)) =
  fst (fst (script predict df sc Other_interaction stored)) /\
  snd (fst (script predict df sc Press_predict ss)) =
  warnings (predict_future_aqi predict sc df) /\
  snd (script predict df sc Press_predict ss) =
  snd (script predict df sc Other_interaction stored).
Proof.
  unfold script. simpl.
  destruct (station_results (predict_future_aqi predict sc df)) as [|r rs];
    [repeat split|].
  destruct (df_long (r :: rs)); [|repeat split].
  change (year_buttons Press_predict 2025) with 2025%Z.
  change (year_buttons Other_interaction 2025) with 2025%Z.
  destruct (markers_of 2025 (r :: rs)); repeat split.
Qed.

Lemma stored_well_formed (sc : scenario) :
  well_formed predict df
    (Session (Some (station_results (predict_future_aqi predict sc df)))
             (Some 2025%Z)).
Proof.
  unfold well_formed. simpl. split; [eauto|].
  exists 2025%Z. split; [reflexivity | lia].
Qed.

Lemma script_well_formed (sc : scenario) (ev : interaction)
  (ss : session_state R) :
  well_formed predict df ss ->
  well_formed predict df (fst (fst (script predict df sc ev ss))) /\
  state_station_results (fst (fst (script predict df sc ev ss))) =
  if predict_pressed ev
  then Some (station_results (predict_future_aqi predict sc df))
  else state_station_results ss.
Proof.
  intros Hwf. destruct (predict_pressed ev) eqn:Ep.
  - destruct ev; try discriminate.
    destruct (script_predict sc ss) as (-> & _ & _).
    destruct (script_display sc Other_interaction _ eq_refl
                (stored_well_formed sc)) as (Hwf' & E & _).
    split; assumption.
  - destruct (script_display sc ev ss Ep Hwf) as (Hwf' & E & _).
    split; assumption.
Qed.

Lemma fold_script_well_formed (runs : list (scenario * interaction))
  (ss : session_state R) (found : option scenario) :
  well_formed predict df ss ->
  state_station_results ss =
    option_map (fun sc => station_results (predict_future_aqi predict sc df))
               found ->
  let ss' :=
    fold_left (fun ss run =>
                 fst (fst (script predict df (fst run) (snd run) ss)))
              runs ss in
  well_formed predict df ss' /\
  state_station_results ss' =
    option_map (fun sc => station_results (predict_future_aqi predict sc df))
               (last_predict runs found).
Proof.
  revert ss found; induction runs as [|[sc ev] runs IH]; intros ss found Hwf E.
  - simpl. now split.
  - cbn [fold_left last_predict fst snd].
    destruct (script_well_formed sc ev ss Hwf) as [Hwf' E'].
    apply IH; [assumption|].
    rewrite E'. destruct (predict_pressed ev); [reflexivity | assumption].
Qed.

Lemma session_after_well_formed (runs : list (scenario * interaction)) :
  well_formed predict df (session_after predict df runs) /\
  state_station_results (session_after predict df runs) =
    option_map (fun sc => station_results (predict_future_aqi predict sc df))
               (last_predict runs None).
Proof.
  unfold session_after.
  apply (fold_script_well_formed runs (Session None None) None);
    reflexivity.
Qed.

(** The page of results of any run from a well-formed session. *)
Lemma script_results_page (sc : scenario) (ev : interaction)
  (ss : session_state R) (chart : list (id_cell * station * R)) (year : Z)
  (markers : list marker) :
  well_formed predict df ss ->
  snd (script predict df sc ev ss) = Results_page chart year markers ->
  exists sc0,
    (2025 <= year <= 2030)%Z /\
    df_long (station_results (predict_future_aqi predict sc0 df)) =
      Some chart /\
    Forall2 (fun m r =>
               marker_stasiun m = r_stasiun r /\
               marker_location m = (latitude r, longitude r) /\
               marker_year m = year /\
               marker_color m = color (marker_year_aqi m) /\
               nth_error (predictions r) (Z.to_nat (year - 2025)) =
               Some (marker_year_aqi m))
            markers (station_results (predict_future_aqi predict sc0 df)).
Proof.
  intros Hwf.
  assert (Hgen : forall ev' ss',
             predict_pressed ev' = false ->
             well_formed predict df ss' ->
             snd (script predict df sc ev' ss') =
               Results_page chart year markers ->
             exists sc0,
               (2025 <= year <= 2030)%Z /\
               df_long (station_results (predict_future_aqi predict sc0 df)) =
                 Some chart /\
               Forall2 (fun m r =>
                          marker_stasiun m = r_stasiun r /\
                          marker_location m = (latitude r, longitude r) /\
                          marker_year m = year /\
                          marker_color m = color (marker_year_aqi m) /\
                          nth_error (predictions r)
                                    (Z.to_nat (year - 2025)) =
                          Some (marker_year_aqi m))
                       markers
                       (station_results (predict_future_aqi predict sc0 df))).
  { intros ev' ss' Ep' Hwf' Epage.
    destruct (script_display sc ev' ss' Ep' Hwf') as (_ & _ & _ & Hpage).
    rewrite Epage in Hpage.
    destruct Hpage as (rs & Ers & _ & _ & Hy & Hchart & Hms).
    unfold well_formed in Hwf'. rewrite Ers in Hwf'.
    destruct Hwf' as [(sc0 & ->) _].
    exists sc0. repeat (split; [assumption|]). assumption. }
  destruct (predict_pressed ev) eqn:Ep.
  - destruct ev; try discriminate.
    destruct (script_predict sc ss) as (_ & _ & ->).
    apply Hgen; [reflexivity | apply stored_well_formed].
  - now apply Hgen.
Qed.

End DisplayFacts.

Lemma Forall2_In_l {A B : Type} (P : A -> B -> Prop) (l : list A)
  (l' : list B) (a : A) :
  Forall2 P l l' -> In a l -> exists b, In b l' /\ P a b.
Proof.
  induction 1 as [|x y l l' Hxy Hl IH]; intros Ha; [contradiction|].
  destruct Ha as [<-|Ha].
  - exists y. split; [now left | assumption].
  - destruct (IH Ha) as (b & Hb & Hab). exists b. split; [now right|].
    assumption.
Qed.

(** X10: the forecast on display is that of the scenario the sliders stood
    at when the predict button was last pressed: moving the sliders or
    pressing year buttons afterwards does not change it, and before the
    first press there is none. *)
Theorem forecast_follows_last_predict {R : Type} `{Number R}
  (predict : features R -> R) (df : list (reading R))
  (runs : list (scenario * interaction)) :
  state_station_results (session_after predict df runs) =
  option_map (fun sc => station_results (predict_future_aqi predict sc df))
             (last_predict runs None).
Proof. apply session_after_well_formed. Qed.

(** X11: after any sequence of interactions the selected year, when there is
    one, is one of 2025..2030, and there is one whenever a forecast is
    stored. *)
Theorem selected_year_in_range {R : Type} `{Number R}
  (predict : features R -> R) (df : list (reading R))
  (runs : list (scenario * interaction)) :
  match state_selected_year (session_after predict df runs) with
  | Some year => (2025 <= year <= 2030)%Z
  | None => state_station_results (session_after predict df runs) = None
  end.
Proof.
  destruct (session_after_well_formed predict df runs) as [Hwf _].
  unfold well_formed in Hwf.
  destruct (state_station_results (session_after predict df runs)).
  - destruct Hwf as [_ (year & -> & Hy)]. exact Hy.
  - now rewrite Hwf.
Qed.

(** X12: [predictions[year_index]] is never out of range.  After any sequence
    of interactions, the year the session selects indexes a value in the
    predictions of every stored forecast: the loop of the map yields one
    marker per forecast, with that value and its colour. *)
Theorem year_index_in_range {R : Type} `{Number R}
  (predict : features R -> R) (df : list (reading R))
  (runs : list (scenario * interaction)) (rs : list (result R)) (year : Z) :
  state_station_results (session_after predict df runs) = Some rs ->
  state_selected_year (session_after predict df runs) = Some year ->
  exists markers,
    markers_of year rs = Some markers /\
    Forall2 (fun m r =>
               marker_stasiun m = r_stasiun r /\
               getitem (predictions r) (year - 2025) =
                 Some (marker_year_aqi m) /\
               nth_error (predictions r) (Z.to_nat (year - 2025)) =
                 Some (marker_year_aqi m) /\
               marker_color m = color (marker_year_aqi m)) markers rs.
Proof.
  intros Ers Eyear.
  destruct (session_after_well_formed predict df runs) as [Hwf _].
  unfold well_formed in Hwf. rewrite Ers in Hwf.
  destruct Hwf as [(sc0 & ->) (y & Ey & Hy)].
  rewrite Eyear in Ey. injection Ey as <-.
  destruct (run_results_shape predict df sc0) as [_ Hlen].
  destruct (markers_of_spec _ year Hlen Hy) as (ms & Ems & Hms).
  exists ms. split; [assumption|].
  rewrite Forall_forall in Hlen.
  clear Ems Ers. induction Hms as [|m r ms rs' Hmr Hms IH]; constructor.
  - destruct Hmr as (Est & _ & _ & Ecolor & Enth).
    repeat (split; try assumption).
    destruct (getitem_year (predictions r) year
                (Hlen r (or_introl eq_refl)) Hy) as (v & Eg & En).
    congruence.
  - apply IH. intros r' Hr'. apply Hlen. now right.
Qed.

Lemma year_index_in_range_witness :
  exists markers,
    markers_of 2030
      (station_results
         (predict_future_aqi example_regressor default_scenario
                             example_table)) = Some markers /\
    Forall2 (fun m r =>
               marker_stasiun m = r_stasiun r /\
               getitem (predictions r) (2030 - 2025) =
                 Some (marker_year_aqi m) /\
               nth_error (predictions r) (Z.to_nat (2030 - 2025)) =
                 Some (marker_year_aqi m) /\
               marker_color m = color (marker_year_aqi m)) markers
            (station_results
               (predict_future_aqi example_regressor default_scenario
                                   example_table)).
Proof.
  apply (year_index_in_range example_regressor example_table
           [(default_scenario, Press_predict);
            (Scenario 0 0 0 0, Press_year 2030)]).
  - reflexivity.
  - reflexivity.
Defined.

(** X13: the map agrees with the chart.  When no station of the table is
    named ["index"], on every page of results the selected year is one of
    2025..2030, the chart has six points per marker, and each marker shows,
    with the colour of its value, the very value the chart plots for its
    station in the selected year. *)
Theorem map_agrees_with_chart {R : Type} `{Number R}
  (predict : features R -> R) (df : list (reading R))
  (runs : list (scenario * interaction)) (sc : scenario) (ev : interaction)
  (chart : list (id_cell * station * R)) (year : Z)
  (markers : list marker) :
  ~ In (Name "index") (map stasiun df) ->
  snd (script predict df sc ev (session_after predict df runs)) =
    Results_page chart year markers ->
  (2025 <= year <= 2030)%Z /\
  List.length chart = (6 * List.length markers)%nat /\
  Forall (fun m =>
            In (Year_cell year, marker_stasiun m, marker_year_aqi m) chart /\
            marker_year m = year /\
            marker_color m = color (marker_year_aqi m)) markers.
Proof.
  intros Hno Epage.
  destruct (session_after_well_formed predict df runs) as [Hwf _].
  destruct (script_results_page predict df sc ev _ chart year markers
              Hwf Epage) as (sc0 & Hy & Hchart & Hms).
  destruct (run_results_shape predict df sc0) as [Hnd Hlen].
  assert (Hno' : ~ In (Name "index")
                     (map r_stasiun
                        (station_results
                           (predict_future_aqi predict sc0 df)))).
  { intros Hin. apply forecast_stations_In in Hin as [_ Hin]. now apply Hno. }
  rewrite (df_long_plain _ chart Hnd Hlen Hno' Hchart).
  split; [assumption|]. split.
  - rewrite melt_length by assumption.
    now rewrite (Forall2_length Hms).
  - apply Forall_forall. intros m Hm.
    destruct (Forall2_In_l _ _ _ m Hms Hm)
      as (r & Hr & Est & _ & Eyear & Ecolor & Enth).
    split; [|split; assumption].
    rewrite Est. unfold melt. apply in_flat_map.
    exists (r_stasiun r, predictions r). split.
    + apply in_map_iff. exists r. now split.
    + apply in_map_iff. exists (year, marker_year_aqi m). simpl.
      split; [reflexivity|].
      replace year with (2025 + Z.of_nat (Z.to_nat (year - 2025)))%Z at 1
        by lia.
      apply combine_future_years; [assumption|lia].
Qed.

Lemma map_agrees_with_chart_witness :
  exists (chart : list (id_cell * station * Q)) (year : Z)
         (markers : list marker),
    snd (script example_regressor example_table default_scenario
           (Press_year 2027)
           (session_after example_regressor example_table
              [(default_scenario, Press_predict)])) =
      Results_page chart year markers /\
    (2025 <= year <= 2030)%Z /\
    List.length chart = (6 * List.length markers)%nat /\
    Forall (fun m =>
              In (Year_cell year, marker_stasiun m, marker_year_aqi m)
                 chart /\
              marker_year m = year /\
              marker_color m = color (marker_year_aqi m)) markers.
Proof.
  do 3 eexists. split; [reflexivity|].
  apply (map_agrees_with_chart example_regressor example_table
           [(default_scenario, Press_predict)] default_scenario
           (Press_year 2027)).
  - intros [E|[E|[E|[]]]]; discriminate.
  - reflexivity.
Defined.
